(** * Locki ID add-on: the credential session lifecycle

    A shallow embedding of [src/__init__.py]: the public accessors
    ([get_active_address], [get_active_profile], [is_logged_in]), the expiry
    parser ([token_expires]), [validate_token], the five session operators
    ([LockiIdLogin], [LockiIdValidate], [LockiIdLogout], [UTILS_OT_get_nonce],
    [UTILS_OT_get_nfts]) and the two panels ([LockiIdPreferences.draw],
    [VIEW3D_PT_locki_panel.draw]).

    The add-on is Python: a statement either completes or raises.  Operators
    are therefore written in a small state-and-exception monad over a [World]
    made of the [LockiIdProfile] class attributes, the persisted profile file,
    the add-on preferences and the log of the calls that leave the module. *)

From Stdlib Require Import String Ascii List ZArith Bool Lia DecimalString.
Import ListNotations.
Open Scope string_scope.
Set Warnings "-register-all".

(** ** Python values *)

Module Py.

(** The JSON-shaped Python values that travel through the profile: the
    ledger's reply, the nonce and the NFT list (floats are left out). *)
Inductive pyval : Type :=
| PyNone
| PyBool (b : bool)
| PyInt (z : Z)
| PyStr (s : string)
| PyList (l : list pyval)
| PyDict (d : list (string * pyval)).

(** The exceptions the modelled statements can raise. *)
Inductive exn : Type :=
| TypeError
| KeyError (k : string)
| ValueError.

(** [bool(v)], the test behind [if v:] and [not v]. *)
Definition truthy (v : pyval) : bool :=
  match v with
  | PyNone => false
  | PyBool b => b
  | PyInt z => negb (Z.eqb z 0)
  | PyStr s => negb (Nat.eqb (String.length s) 0)
  | PyList l => negb (Nat.eqb (List.length l) 0)
  | PyDict d => negb (Nat.eqb (List.length d) 0)
  end.

(** [bool(s)] on a [str]. *)
Definition str_truthy (s : string) : bool := truthy (PyStr s).

(** A dict literal or JSON object holds one value per key; a lookup finds
    the entry for the key. *)
Fixpoint dict_get (k : string) (d : list (string * pyval)) : option pyval :=
  match d with
  | [] => None
  | (k', v) :: rest => if String.eqb k k' then Some v else dict_get k rest
  end.

(** [v[k]] for a [str] key [k]: only a dict accepts a string subscript, and
    a missing key is a [KeyError]; every other value raises [TypeError]. *)
Definition getitem (v : pyval) (k : string) : pyval + exn :=
  match v with
  | PyDict d =>
      match dict_get k d with
      | Some x => inl x
      | None => inr (KeyError k)
      end
  | _ => inr TypeError
  end.

(** [str(n)] for an [int]. *)
Definition str_of_Z (z : Z) : string := NilZero.string_of_int (Z.to_int z).

(** [str(n)] for a length, as [f"{count}"] prints it. *)
Definition str_of_nat (n : nat) : string := str_of_Z (Z.of_nat n).

Definition join (sep : string) (l : list string) : string :=
  String.concat sep l.

(** [repr(v)].  Strings and dict keys are shown between single quotes, which
    is Python's output for a string with no quote, backslash or control
    character. *)
Fixpoint repr (v : pyval) : string :=
  match v with
  | PyNone => "None"
  | PyBool true => "True"
  | PyBool false => "False"
  | PyInt z => str_of_Z z
  | PyStr s => "'" ++ s ++ "'"
  | PyList l => "[" ++ join ", " (List.map repr l) ++ "]"
  | PyDict d =>
      "{" ++ join ", "
               (List.map (fun kv => "'" ++ fst kv ++ "': " ++ repr (snd kv)) d)
          ++ "}"
  end.

(** [str(v)]: a string is itself, anything else prints as its [repr]. *)
Definition str (v : pyval) : string :=
  match v with
  | PyStr s => s
  | _ => repr v
  end.

(** The value is an [int] proper (not a [str], not a [bool]) and is [>= 0]. *)
Definition is_nonneg_int (v : pyval) : bool :=
  match v with
  | PyInt z => Z.leb 0 z
  | _ => false
  end.

End Py.
Import Py.

(** ** The world an operator runs in *)

(** [LockiIdProfile]: the class whose attributes are the one session of the
    process.  [address] is a [str] (see [get_active_address]); [expires] is a
    [str] or [None]; [nonce] and [nfts] hold whatever the callers assign. *)
Module LockiIdProfile.

Record t : Type := mk {
  address : string;
  api_key : string;
  token : string;
  expires : option string;
  nonce : pyval;
  nfts : pyval
}.

Definition set_expires (e : option string) (p : t) : t :=
  mk (address p) (api_key p) (token p) e (nonce p) (nfts p).

Definition set_nonce (n : pyval) (p : t) : t :=
  mk (address p) (api_key p) (token p) (expires p) n (nfts p).

Definition set_nfts (l : pyval) (p : t) : t :=
  mk (address p) (api_key p) (token p) (expires p) (nonce p) l.

(** The session of a process that has not logged in: every field empty or
    at its default. *)
Definition empty : t := mk "" "" "" None (PyInt 0) (PyList []).

End LockiIdProfile.

(** [LockiIdPreferences]: the host-held preferences.  The four
    [StringProperty] fields are strings and [nonce] is an [IntProperty]. *)
Module LockiIdPreferences.

Record t : Type := mk {
  error_message : string;
  ok_message : string;
  address : string;
  api_key : string;
  nonce : Z
}.

Definition set_error_message (m : string) (p : t) : t :=
  mk m (ok_message p) (address p) (api_key p) (nonce p).

Definition set_ok_message (m : string) (p : t) : t :=
  mk (error_message p) m (address p) (api_key p) (nonce p).

Definition set_nonce (n : Z) (p : t) : t :=
  mk (error_message p) (ok_message p) (address p) (api_key p) n.

(** [reset_messages]: [self.ok_message = ''] then [self.error_message = '']. *)
Definition reset_messages (p : t) : t :=
  set_error_message "" (set_ok_message "" p).

End LockiIdPreferences.

(** The persisted profile file. *)
Inductive FileState : Type :=
| Missing
| Malformed
| Stored (s : LockiIdProfile.t).

(** The calls that leave [__init__.py], in the order they are made. *)
Inductive Event : Type :=
| ServerAuthenticate (api_key : string)
| ServerValidate (token : string)
| ServerLogout (address token : string)
| LedgerNonce (address : string)
| LedgerNfts (address : string)
| ShowMessage (title message : string)
| SaveAsActiveProfile (address : string)
| ProfilesLogout (address : string)
| SaveJson
| ReadJson.

Record World : Type := mkWorld {
  profile : LockiIdProfile.t;
  file : FileState;
  prefs : LockiIdPreferences.t;
  log : list Event
}.

Definition with_profile (f : LockiIdProfile.t -> LockiIdProfile.t) (w : World) : World :=
  mkWorld (f (profile w)) (file w) (prefs w) (log w).

Definition with_file (d : FileState) (w : World) : World :=
  mkWorld (profile w) d (prefs w) (log w).

Definition with_prefs (f : LockiIdPreferences.t -> LockiIdPreferences.t) (w : World) : World :=
  mkWorld (profile w) (file w) (f (prefs w)) (log w).

Definition emit (e : Event) (w : World) : World :=
  mkWorld (profile w) (file w) (prefs w) (log w ++ [e]).

(** ** Statements: state and exceptions *)

Inductive outcome (A : Type) : Type :=
| Returned (a : A) (w : World)
| Raised (e : exn) (w : World).

Arguments Returned {A} a w.
Arguments Raised {A} e w.

Definition M (A : Type) : Type := World -> outcome A.

Definition ret {A} (a : A) : M A := fun w => Returned a w.

Definition bind {A B} (m : M A) (k : A -> M B) : M B :=
  fun w =>
    match m w with
    | Returned a w' => k a w'
    | Raised e w' => Raised e w'
    end.

Definition raise {A} (e : exn) : M A := fun w => Raised e w.

Definition get : M World := fun w => Returned w w.

Definition modify (f : World -> World) : M unit := fun w => Returned tt (f w).

(** A Python expression that yields a value or raises. *)
Definition lift {A} (r : A + exn) : M A :=
  match r with
  | inl a => ret a
  | inr e => raise e
  end.

(** [try: body  except ValueError: handler]. *)
Definition try_except_ValueError {A} (body handler : M A) : M A :=
  fun w =>
    match body w with
    | Raised ValueError w' => handler w'
    | r => r
    end.

Declare Scope py_scope.
Delimit Scope py_scope with py.
Notation "x <- m ;; k" := (bind m (fun x => k))
  (at level 61, m at next level, right associativity) : py_scope.
Notation "m ;; k" := (bind m (fun _ => k))
  (at level 61, right associativity) : py_scope.
Open Scope py_scope.

(** The world an outcome ends in, and whether it is a normal return. *)
Definition final {A} (r : outcome A) : World :=
  match r with
  | Returned _ w => w
  | Raised _ w => w
  end.

Definition returned {A} (r : outcome A) : option A :=
  match r with
  | Returned a _ => Some a
  | Raised _ _ => None
  end.

Definition raised {A} (r : outcome A) : option exn :=
  match r with
  | Returned _ _ => None
  | Raised e _ => Some e
  end.

(** ** What lies outside [__init__.py] *)

(** The reply of the identity service to an authentication request. *)
Record AuthResult : Type := mkAuthResult {
  success : bool;
  auth_token : string;
  error_message : string
}.

(** A ledger NFT record: an identifier and, unless the record is malformed,
    a display URL. *)
Record NftRecord : Type := mkNftRecord {
  identifier : string;
  url : option string
}.

(** An entry of a host enum property, as in [NftsModels.nft_identifiers]. *)
Definition menu_item : Type := (string * string * string)%type.

(** [datetime.datetime], naive. *)
Record datetime : Type := mkDatetime {
  year : Z; month : Z; day : Z;
  hour : Z; minute : Z; second : Z; microsecond : Z
}.

(** The replies of the two remote services (for the NFT lookup, the records
    of the account or [None] when the lookup fails), what
    [get_urllist_from_list] makes of the value of a failed lookup (a list or
    an exception: the specification does not say), the one helper of
    [mvx_requests] the specification is silent about, and the standard
    library's [datetime.datetime.strptime] ([None] stands for its
    [ValueError], the one exception it raises on a [str] with a well-formed
    format). *)
Record Env : Type := mkEnv {
  authenticate : string -> AuthResult;
  validate : string -> option string * option string;
  invalidate : string -> string -> bool;
  account_nonce : string -> pyval;
  account_nfts : string -> option (list NftRecord);
  urllist_of_failure : list string + exn;
  transform_nft_urls_in_menu : list string -> list menu_item;
  strptime : string -> string -> option datetime
}.

Module communication.

(** Modelled from the spec: [communication.locki_id_server_authenticate] is
    not under src/.  "authenticate(apiKey) -> {success, token?,
    errorMessage?}: POSTs the key to the identity endpoint.  Signals failure
    (not an exception)". *)
Definition locki_id_server_authenticate (env : Env) (api_key : string) : M AuthResult :=
  modify (emit (ServerAuthenticate api_key)) ;;
  ret (authenticate env api_key).

(** Modelled from the spec: [communication.locki_id_server_validate] is not
    under src/.  "validate(token) -> {expires?, error?}: asks the identity
    service whether a token is still valid; returns an updated expiry on
    success"; the caller unpacks the pair [(expires, err)]. *)
Definition locki_id_server_validate (env : Env) (token : string)
  : M (option string * option string) :=
  modify (emit (ServerValidate token)) ;;
  ret (validate env token).

(** Modelled from the spec: [communication.locki_id_server_logout] is not
    under src/.  "logout(address, token): best-effort server-side
    invalidation", returning "a structured success/failure value rather than
    raising". *)
Definition locki_id_server_logout (env : Env) (address token : string) : M bool :=
  modify (emit (ServerLogout address token)) ;;
  ret (invalidate env address token).

End communication.

Module profiles.

(** Modelled from the spec: [LockiIdProfile.read_json] is not under src/.
    "load() -> Session: reads the persisted JSON file if present; on missing
    file or malformed JSON, returns a fresh empty Session". *)
Definition load (f : FileState) : LockiIdProfile.t :=
  match f with
  | Stored s => s
  | Missing | Malformed => LockiIdProfile.empty
  end.

Definition read_json : M unit :=
  modify (emit ReadJson) ;;
  modify (fun w => with_profile (fun _ => load (file w)) w).

(** Modelled from the spec: [LockiIdProfile.save_json] is not under src/.
    "save(session): serializes and overwrites the persisted file". *)
Definition save_json : M unit :=
  modify (emit SaveJson) ;;
  modify (fun w => with_file (Stored (profile w)) w).

(** Modelled from the spec: [profiles.save_as_active_profile] is not under
    src/.  "setActive(authResult, address, apiKey, extra, nonce): on
    successful authentication, populates the singleton fields and calls
    save"; the fields set are address, apiKey, token, nonce and nfts, and the
    expiry stays unknown until a validation supplies one. *)
Definition save_as_active_profile (auth_result : AuthResult)
  (address api_key : string) (extra nonce : pyval) : M unit :=
  modify (emit (SaveAsActiveProfile address)) ;;
  modify (with_profile (fun _ =>
    LockiIdProfile.mk address api_key (auth_token auth_result) None nonce extra)) ;;
  save_json.

(** Modelled from the spec: [profiles.logout] is not under src/.
    "clear(address): on logout, resets all fields to empty/default and calls
    save". *)
Definition logout (address : string) : M unit :=
  modify (emit (ProfilesLogout address)) ;;
  modify (with_profile (fun _ => LockiIdProfile.empty)) ;;
  save_json.

End profiles.

Module mvx_requests.

(** Modelled from the spec: [mvx_requests.check_address_nonce] is not under
    src/.  "getAccountNonce(address) -> {nonce} | fails: single request to a
    ledger-indexing HTTP endpoint"; the caller tests the reply for truth and
    subscripts it with ['nonce']. *)
Definition check_address_nonce (env : Env) (address : string) : M pyval :=
  modify (emit (LedgerNonce address)) ;;
  ret (account_nonce env address).

(** Modelled from the spec: [mvx_requests.get_nftlist_from_address] is not
    under src/.  "getOwnedNfts(address) -> sequence of NftRecord | fails:
    fetches the account's NFT holdings ... Must handle an account with zero
    NFTs as an empty sequence, not an error".  As "clients never raise for
    expected failure modes", a failed lookup is a returned value, [None]
    here, and a lookup that succeeds returns the records, none for an account
    without holdings. *)
Definition get_nftlist_from_address (env : Env) (address : string)
  : M (option (list NftRecord)) :=
  modify (emit (LedgerNfts address)) ;;
  ret (account_nfts env address).

(** Modelled from the spec: [mvx_requests.get_urllist_from_list] is not under
    src/.  "extractDisplayUrls(records) -> sequence of string: pure
    transformation ... one display URL per record; must be order-preserving
    and must not fail on malformed individual records (skip and continue)". *)
Fixpoint get_urllist_from_list (records : list NftRecord) : list string :=
  match records with
  | [] => []
  | r :: rest =>
      match url r with
      | Some u => u :: get_urllist_from_list rest
      | None => get_urllist_from_list rest
      end
  end.

(** [get_urllist_from_list(nft_list)] on whatever the lookup returned: the
    display URLs of the records, or, for the value of a failed lookup, what
    the environment says the helper does with it. *)
Definition urllist_of_lookup (env : Env) (nft_list : option (list NftRecord))
  : list string + exn :=
  match nft_list with
  | Some records => inl (get_urllist_from_list records)
  | None => urllist_of_failure env
  end.

Arguments urllist_of_lookup : simpl never.

(** Modelled from the spec: [mvx_requests.show_message] is not under src/; it
    is the "user-readable message" shown by the host, a title and a text. *)
Definition show_message (title message : string) : M unit :=
  modify (emit (ShowMessage title message)).

End mvx_requests.

(** The host's [IntProperty] setter: an [int] in the 32-bit range is stored
    ([bool] counts as [int]), a larger one is a [ValueError], anything else a
    [TypeError]. *)
Definition int_property (v : pyval) : Z + exn :=
  match v with
  | PyInt z =>
      if (Z.leb (- 2147483648) z && Z.leb z 2147483647)%bool then inl z else inr ValueError
  | PyBool b => inl (if b then 1%Z else 0%Z)
  | _ => inr TypeError
  end.

(** [tip_]: the host's translation of interface text, the identity in the
    default locale. *)
Definition tip_ (s : string) : string := s.

(** ** [src/__init__.py] *)

(** [get_active_address]: [return LockiIdProfile.address]. *)
Definition get_active_address : M string :=
  w <- get ;;
  ret (LockiIdProfile.address (profile w)).

(** [get_active_profile]: [None] when [not LockiIdProfile.address], the
    profile class otherwise. *)
Definition get_active_profile : M (option LockiIdProfile.t) :=
  w <- get ;;
  if negb (str_truthy (LockiIdProfile.address (profile w)))
  then ret None
  else ret (Some (profile w)).

(** [is_logged_in]: [bool(LockiIdProfile.address != '')]. *)
Definition is_logged_in : M bool :=
  w <- get ;;
  ret (negb (String.eqb (LockiIdProfile.address (profile w)) "")).

(** The three format strings of [token_expires], in the order of the list. *)
Definition ISO_8601_Z : string := "%Y-%m-%dT%H:%M:%SZ".
Definition ISO_8601_FRACTION_Z : string := "%Y-%m-%dT%H:%M:%S.%fZ".
Definition RFC_1123 : string := "%a, %d %b %Y %H:%M:%S GMT".

Definition formats : list string :=
  [ISO_8601_Z; ISO_8601_FRACTION_Z; RFC_1123].

(** [datetime.datetime.strptime(exp, fmt)] as a statement. *)
Definition datetime_strptime (env : Env) (exp fmt : string) : M datetime :=
  match strptime env exp fmt with
  | Some d => ret d
  | None => raise ValueError
  end.

(** The loop [for fmt in formats: try: return strptime(exp, fmt)  except
    ValueError: pass], followed by [return None]. *)
Fixpoint try_formats (env : Env) (exp : string) (fmts : list string)
  : M (option datetime) :=
  match fmts with
  | [] => ret None
  | fmt :: rest =>
      try_except_ValueError
        (d <- datetime_strptime env exp fmt ;; ret (Some d))
        (try_formats env exp rest)
  end.

(** [token_expires]. *)
Definition token_expires (env : Env) : M (option datetime) :=
  w <- get ;;
  match LockiIdProfile.expires (profile w) with
  | None => ret None
  | Some exp =>
      if negb (str_truthy exp) then ret None
      else try_formats env exp formats
  end.

(** [LockiIdMixin.addon_prefs]: fetches the preferences and resets their
    messages; the operators then read and assign the preferences in place. *)
Definition addon_prefs : M unit :=
  modify (with_prefs LockiIdPreferences.reset_messages).

(** The host return code [{'FINISHED'}]. *)
Definition FINISHED : list string := ["FINISHED"].

(** [validate_token]. *)
Definition validate_token (env : Env) : M (option string) :=
  w <- get ;;
  r <- communication.locki_id_server_validate env (LockiIdProfile.token (profile w)) ;;
  match snd r with
  | Some err => ret (Some err)
  | None =>
      modify (with_profile (LockiIdProfile.set_expires (fst r))) ;;
      profiles.save_json ;;
      ret None
  end.

Module LockiIdLogin.

Definition execute (env : Env) : M (list string) :=
  addon_prefs ;;
  w <- get ;;
  auth_result <-
    communication.locki_id_server_authenticate env
      (LockiIdPreferences.api_key (prefs w)) ;;
  (if success auth_result then
     profiles.save_as_active_profile auth_result
       (LockiIdPreferences.address (prefs w))
       (LockiIdPreferences.api_key (prefs w))
       (PyDict [])
       (PyStr "0") ;;
     modify (with_prefs (LockiIdPreferences.set_ok_message (tip_ "Logged in")))
   else
     modify (with_prefs
               (LockiIdPreferences.set_error_message (error_message auth_result))) ;;
     w1 <- get ;;
     if str_truthy (LockiIdProfile.address (profile w1))
     then profiles.logout (LockiIdProfile.address (profile w1))
     else ret tt) ;;
  profiles.read_json ;;
  ret FINISHED.

End LockiIdLogin.

Module LockiIdValidate.

Definition execute (env : Env) : M (list string) :=
  addon_prefs ;;
  err <- validate_token env ;;
  match err with
  | None =>
      modify (with_prefs
                (LockiIdPreferences.set_ok_message (tip_ "Authentication token is valid")))
  | Some e =>
      modify (with_prefs
                (LockiIdPreferences.set_error_message
                   (e ++ tip_ "; you probably want to log out and log in again")))
  end ;;
  profiles.read_json ;;
  ret FINISHED.

End LockiIdValidate.

Module LockiIdLogout.

Definition execute (env : Env) : M (list string) :=
  addon_prefs ;;
  w <- get ;;
  communication.locki_id_server_logout env
    (LockiIdProfile.address (profile w)) (LockiIdProfile.token (profile w)) ;;
  w1 <- get ;;
  profiles.logout (LockiIdProfile.address (profile w1)) ;;
  profiles.read_json ;;
  modify (with_prefs
            (LockiIdPreferences.set_ok_message (tip_ "You have been logged out"))) ;;
  ret FINISHED.

End LockiIdLogout.

Module UTILS_OT_get_nonce.

Definition execute (env : Env) : M (list string) :=
  addon_prefs ;;
  w <- get ;;
  result <- mvx_requests.check_address_nonce env (LockiIdProfile.address (profile w)) ;;
  (if truthy result then
     n <- lift (getitem result "nonce") ;;
     modify (with_profile (LockiIdProfile.set_nonce n)) ;;
     n' <- lift (getitem result "nonce") ;;
     z <- lift (int_property n') ;;
     modify (with_prefs (LockiIdPreferences.set_nonce z)) ;;
     profiles.save_json
   else ret tt) ;;
  w1 <- get ;;
  n <- lift (getitem result "nonce") ;;
  mvx_requests.show_message
    (str (PyStr (LockiIdProfile.address (profile w1))))
    ("Nonce: " ++ str n) ;;
  profiles.read_json ;;
  ret FINISHED.

End UTILS_OT_get_nonce.

Module UTILS_OT_get_nfts.

Definition execute (env : Env) : M (list string) :=
  addon_prefs ;;
  w <- get ;;
  nft_list <-
    mvx_requests.get_nftlist_from_address env (LockiIdProfile.address (profile w)) ;;
  nft_urls <- lift (mvx_requests.urllist_of_lookup env nft_list) ;;
  modify (with_profile (LockiIdProfile.set_nfts (PyList (List.map PyStr nft_urls)))) ;;
  let test := transform_nft_urls_in_menu env nft_urls in
  let count := List.length test in
  w1 <- get ;;
  mvx_requests.show_message
    (LockiIdProfile.address (profile w1))
    (str_of_nat count ++ " NFTs loaded") ;;
  profiles.save_json ;;
  modify (with_prefs
            (LockiIdPreferences.set_ok_message (tip_ "You have loaded the NFTs"))) ;;
  profiles.read_json ;;
  ret FINISHED.

End UTILS_OT_get_nfts.

(** ** The preferences and the side panel *)

(** [datetime.timedelta], normalised: [0 <= seconds < 86400] and
    [0 <= microseconds < 1000000]. *)
Record timedelta : Type := mkTimedelta {
  days : Z;
  seconds : Z;
  microseconds : Z
}.

(** The standard library's arithmetic on naive [datetime] values. *)
Module Datetime.

Definition is_leap (y : Z) : bool :=
  ((y mod 4 =? 0) && (negb (y mod 100 =? 0) || (y mod 400 =? 0)))%Z%bool.

Definition days_before_year (y : Z) : Z :=
  (let y1 := y - 1 in y1 * 365 + y1 / 4 - y1 / 100 + y1 / 400)%Z.

Definition DAYS_BEFORE_MONTH : list Z :=
  [-1; 0; 31; 59; 90; 120; 151; 181; 212; 243; 273; 304; 334]%Z.

Definition days_before_month (y m : Z) : Z :=
  (nth (Z.to_nat m) DAYS_BEFORE_MONTH 0
   + (if ((2 <? m) && is_leap y)%bool then 1 else 0))%Z.

(** [d.toordinal()]. *)
Definition toordinal (d : datetime) : Z :=
  (days_before_year (year d) + days_before_month (year d) (month d) + day d)%Z.

(** The fields in the order in which two naive datetimes are compared. *)
Definition as_tuple (d : datetime) : list Z :=
  [year d; month d; day d; hour d; minute d; second d; microsecond d].

Fixpoint tuple_lt (a b : list Z) : bool :=
  match a, b with
  | x :: a', y :: b' => ((x <? y)%Z || ((x =? y)%Z && tuple_lt a' b'))%bool
  | _, _ => false
  end.

(** [a >= b]. *)
Definition ge (a b : datetime) : bool :=
  negb (tuple_lt (as_tuple a) (as_tuple b)).

(** [timedelta(days, seconds, microseconds)] on integers: the microseconds
    carry into the seconds and the seconds into the days. *)
Definition normalise (d s us : Z) : timedelta :=
  (let s1 := s + us / 1000000 in
   mkTimedelta (d + s1 / 86400) (s1 mod 86400) (us mod 1000000))%Z.

(** [a - b]. *)
Definition sub (a b : datetime) : timedelta :=
  (normalise (toordinal a - toordinal b)
     ((second a + minute a * 60 + hour a * 3600)
      - (second b + minute b * 60 + hour b * 3600))
     (microsecond a - microsecond b))%Z.

End Datetime.

(** [round(s / d)] for integers [0 <= s] and [0 < d]: the quotient is taken
    to the nearest integer and a tie goes to the even one.  (The float [s / d]
    of the source is either the exact half-integer or nearer to the true
    quotient than to any half-integer, so the integer computation gives the
    same result.) *)
Definition round_div (s d : Z) : Z :=
  (let q := s / d in
   let r := s mod d in
   if 2 * r <? d then q
   else if d <? 2 * r then q + 1
   else if Z.even q then q else q + 1)%Z.

(** What the preferences panel needs from outside the module: the clock
    ([datetime.datetime.utcnow()]), [datetime]'s formatting with
    ['{:%Y-%m-%d}'], and the configured and the default endpoint of the
    identity service. *)
Record Host : Type := mkHost {
  utcnow : datetime;
  format_date : datetime -> string;
  auth_endpoint : string;
  AUTH_ENDPOINT : string
}.

(** The calls made on the host's layout, in order.  A label without an icon
    has the host's default icon ['NONE']; an operator button may carry its
    own text. *)
Inductive UiCall : Type :=
| Row
| SetAlert
| Column
| Split
| Separator
| Label (text icon : string)
| PropField (name : string)
| OperatorButton (idname : string) (text : option string).

(** The [if]/[elif] chain of [LockiIdPreferences.draw] that words the time
    left. *)
Definition exp_str (h : Host) (expiry : datetime) (time_left : timedelta) : string :=
  if (14 <? days time_left)%Z then
    tip_ "on " ++ format_date h expiry
  else if (1 <? days time_left)%Z then
    tip_ "in " ++ str_of_Z (days time_left) ++ tip_ " days"
  else if (7200 <=? seconds time_left)%Z then
    tip_ "in " ++ str_of_Z (round_div (seconds time_left) 3600) ++ tip_ " hours"
  else if (120 <=? seconds time_left)%Z then
    tip_ "in " ++ str_of_Z (round_div (seconds time_left) 60) ++ tip_ " minutes"
  else
    tip_ "within seconds".

(** The branch of [LockiIdPreferences.draw] for a token that has not expired
    yet: who is logged in, and when the token expires. *)
Definition draw_time_left (h : Host) (active_profile : LockiIdProfile.t)
  (expiry now : datetime) : list UiCall :=
  let time_left := Datetime.sub expiry now in
  let exp := exp_str h expiry time_left in
  let endpoint := auth_endpoint h in
  let msg :=
    if String.eqb endpoint (AUTH_ENDPOINT h)
    then tip_ "You are logged with key " ++ LockiIdProfile.api_key active_profile
    else tip_ "You are logged in as " ++ LockiIdProfile.api_key active_profile
         ++ tip_ " at " ++ endpoint in
  [Column; Label msg "WORLD_DATA"] ++
  (if (days time_left <? 14)%Z
   then [Label (tip_ "Your token will expire " ++ exp
                ++ tip_ ". Please log out and log in again to refresh it")
               "PREVIEW_RANGE"]
   else [Label (tip_ "Your authentication token expires " ++ exp) "BLANK1"]).

(** [LockiIdPreferences.draw]; [self] is the preferences of the world. *)
Definition LockiIdPreferences_draw (h : Host) (env : Env) : M (list UiCall) :=
  w <- get ;;
  let self := prefs w in
  let errors :=
    if str_truthy (LockiIdPreferences.error_message self)
    then [Row; SetAlert; Label (LockiIdPreferences.error_message self) "ERROR"]
    else [] in
  let oks :=
    if str_truthy (LockiIdPreferences.ok_message self)
    then [Row; Label (LockiIdPreferences.ok_message self) "FILE_TICK"]
    else [] in
  active_profile <- get_active_profile ;;
  match active_profile with
  | Some p =>
      expiry <- token_expires env ;;
      let now := utcnow h in
      let status :=
        match expiry with
        | None =>
            [Label "We do not know when your token expires, please validate it" "NONE"]
        | Some e =>
            if Datetime.ge now e
            then [Label "Your login has expired! Log out and log in again to refresh it"
                        "ERROR"]
            else draw_time_left h p e now
        end in
      ret (errors ++ oks ++ status ++
           [Row; Split;
            OperatorButton "locki_id.logout" None;
            OperatorButton "locki_id.validate" None])%list
  | None =>
      ret (errors ++ oks ++
           [PropField "address"; PropField "api_key"; OperatorButton "locki_id.login" None])%list
  end.

Module VIEW3D_PT_locki_panel.

(** The two ledger buttons, drawn only for a logged-in user. *)
Definition ledger_buttons : list UiCall :=
  [Row; OperatorButton "utils.get_nonce" (Some "Check MvX nonce");
   Row; OperatorButton "utils.get_nfts" (Some "Get MvX nfts")].

(** The scene buttons, drawn for everyone. *)
Definition scene_buttons : list UiCall :=
  [Row; OperatorButton "mesh.clean_scene" (Some "Clear Scene");
   Separator;
   Row; OperatorButton "mesh.primitive_cube_add" (Some "Add Cube");
   Row; OperatorButton "mesh.primitive_ico_sphere_add" (Some "Add Ico Sphere");
   Row; OperatorButton "object.shade_smooth" (Some "Shade Smooth");
   Separator;
   Row; OperatorButton "mesh.add_subdiv_monkey" (Some "Add Subdivided Monkey");
   Row; OperatorButton "mesh.add_rotating_cube" (Some "Add rotating cube")].

Definition draw : M (list UiCall) :=
  logged <- is_logged_in ;;
  ret ((if logged then ledger_buttons else []) ++ scene_buttons)%list.

End VIEW3D_PT_locki_panel.

(** What a drawn layout offers: the operators behind its buttons, the
    fields it lets the user edit and the texts it shows, each in order. *)
Fixpoint operator_ids (calls : list UiCall) : list string :=
  match calls with
  | [] => []
  | OperatorButton idname _ :: rest => idname :: operator_ids rest
  | _ :: rest => operator_ids rest
  end.

Fixpoint prop_names (calls : list UiCall) : list string :=
  match calls with
  | [] => []
  | PropField name :: rest => name :: prop_names rest
  | _ :: rest => prop_names rest
  end.

Fixpoint label_texts (calls : list UiCall) : list string :=
  match calls with
  | [] => []
  | Label text _ :: rest => text :: label_texts rest
  | _ :: rest => label_texts rest
  end.

(** The parts of what [LockiIdPreferences.draw] draws: the message rows it
    starts with, and the two forms it can end with. *)
Definition message_rows (self : LockiIdPreferences.t) : list UiCall :=
  (if str_truthy (LockiIdPreferences.error_message self)
   then [Row; SetAlert; Label (LockiIdPreferences.error_message self) "ERROR"]
   else []) ++
  (if str_truthy (LockiIdPreferences.ok_message self)
   then [Row; Label (LockiIdPreferences.ok_message self) "FILE_TICK"]
   else []).

Definition login_form : list UiCall :=
  [PropField "address"; PropField "api_key"; OperatorButton "locki_id.login" None].

Definition session_buttons : list UiCall :=
  [Row; Split;
   OperatorButton "locki_id.logout" None;
   OperatorButton "locki_id.validate" None].

Definition UNKNOWN_EXPIRY : string :=
  "We do not know when your token expires, please validate it".

Definition LOGIN_EXPIRED : string :=
  "Your login has expired! Log out and log in again to refresh it".

(** The status rows of a logged-in user, by what is known of the expiry. *)
Definition status_rows_of (h : Host) (p : LockiIdProfile.t) (expiry : option datetime)
  : list UiCall :=
  match expiry with
  | None => [Label UNKNOWN_EXPIRY "NONE"]
  | Some e =>
      if Datetime.ge (utcnow h) e then [Label LOGIN_EXPIRED "ERROR"]
      else draw_time_left h p e (utcnow h)
  end.

(** ** Sample environments and worlds *)

Module Sample.

Definition alice : string := "erd1alice".
Definition bob : string := "erd1bob".

(** A session left by an earlier login of [alice]. *)
Definition alice_session : LockiIdProfile.t :=
  LockiIdProfile.mk alice "key-alice" "tok-alice" (Some "2024-05-01T10:00:00Z")
    (PyInt 7) (PyList [PyStr "https://nft.example/1"]).

(** The user typed [bob]'s address and a key in the preferences. *)
Definition typed_prefs : LockiIdPreferences.t :=
  LockiIdPreferences.mk "" "" bob "key-bob" 0.

Definition logged_in : World :=
  mkWorld alice_session (Stored alice_session) typed_prefs [].

Definition logged_out : World :=
  mkWorld LockiIdProfile.empty Missing typed_prefs [].

(** A [strptime] that knows three timestamps, two in the first ISO format
    and one in the second. *)
Definition toy_strptime (s fmt : string) : option datetime :=
  if (String.eqb s "2024-05-01T10:00:00Z" && String.eqb fmt ISO_8601_Z)%bool
  then Some (mkDatetime 2024 5 1 10 0 0 0)
  else if (String.eqb s "2024-06-01T10:00:00Z" && String.eqb fmt ISO_8601_Z)%bool
  then Some (mkDatetime 2024 6 1 10 0 0 0)
  else if (String.eqb s "2024-05-01T10:00:00.250Z" && String.eqb fmt ISO_8601_FRACTION_Z)%bool
  then Some (mkDatetime 2024 5 1 10 0 0 250000)
  else None.

Definition one_item_per_url (urls : list string) : list menu_item :=
  List.map (fun u => (u, u, u)) urls.

(** Every remote call fails: the key is rejected, validation and server
    logout fail, the ledger has no reply, and the URL helper raises on the
    value of the failed NFT lookup. *)
Definition failing : Env :=
  mkEnv (fun _ => mkAuthResult false "" "Invalid API key")
        (fun _ => (None, Some "Token expired"))
        (fun _ _ => false)
        (fun _ => PyNone)
        (fun _ => None)
        (inr TypeError)
        one_item_per_url
        toy_strptime.

(** Every remote call succeeds; the account holds nonce 12 and no NFT. *)
Definition working : Env :=
  mkEnv (fun _ => mkAuthResult true "tok-new" "")
        (fun _ => (Some "2024-06-01T10:00:00Z", None))
        (fun _ _ => true)
        (fun _ => PyDict [("nonce", PyInt 12)])
        (fun _ => Some [])
        (inr TypeError)
        one_item_per_url
        toy_strptime.

(** As [failing], with the ledger answering an empty JSON object. *)
Definition empty_reply : Env :=
  mkEnv (authenticate failing) (validate failing) (invalidate failing)
        (fun _ => PyDict [])
        (account_nfts failing) (urllist_of_failure failing)
        one_item_per_url toy_strptime.

End Sample.

(** Sample hosts and worlds for the panels. *)
Module SampleUi.

Definition two_digits (z : Z) : string :=
  if (z <? 10)%Z then "0" ++ str_of_Z z else str_of_Z z.

Definition iso_date (d : datetime) : string :=
  str_of_Z (year d) ++ "-" ++ two_digits (month d) ++ "-" ++ two_digits (day d).

(** The clock reads 2024-04-30 09:59:30 and the default endpoint is in use:
    [Sample.alice_session] expires in one day and thirty seconds. *)
Definition day_before : Host :=
  mkHost (mkDatetime 2024 4 30 9 59 30 0) iso_date
         "https://id.example/" "https://id.example/".

(** The clock reads 2024-04-30 10:10:00: twenty-three hours and fifty
    minutes are left. *)
Definition nearly_a_day : Host :=
  mkHost (mkDatetime 2024 4 30 10 10 0 0) iso_date
         "https://id.example/" "https://id.example/".

(** The clock reads 2024-04-17 10:00:00: exactly fourteen days are left. *)
Definition fortnight_before : Host :=
  mkHost (mkDatetime 2024 4 17 10 0 0 0) iso_date
         "https://id.example/" "https://id.example/".

(** The clock reads 2024-05-02 08:00:00: the session has expired. *)
Definition day_after : Host :=
  mkHost (mkDatetime 2024 5 2 8 0 0 0) iso_date
         "https://id.example/" "https://id.example/".

(** A stored session whose expiry no format parses. *)
Definition odd_expiry : World :=
  mkWorld (LockiIdProfile.set_expires (Some "tomorrow") Sample.alice_session)
          (Stored (LockiIdProfile.set_expires (Some "tomorrow") Sample.alice_session))
          Sample.typed_prefs [].

(** A session in memory whose file has been deleted. *)
Definition file_lost : World :=
  mkWorld Sample.alice_session Missing Sample.typed_prefs [].

(** The ledger answers with a nonce written as a string. *)
Definition string_nonce : Env :=
  mkEnv (authenticate Sample.working) (validate Sample.working)
        (invalidate Sample.working)
        (fun _ => PyDict [("nonce", PyStr "12")])
        (account_nfts Sample.working) (urllist_of_failure Sample.working)
        Sample.one_item_per_url Sample.toy_strptime.

(** The ledger holds three records for the account, the second malformed. *)
Definition three_records : Env :=
  mkEnv (authenticate Sample.working) (validate Sample.working)
        (invalidate Sample.working) (account_nonce Sample.working)
        (fun _ => Some [mkNftRecord "A-1" (Some "https://nft.example/a");
                        mkNftRecord "B-2" None;
                        mkNftRecord "C-3" (Some "https://nft.example/c")])
        (urllist_of_failure Sample.working)
        Sample.one_item_per_url Sample.toy_strptime.



End SampleUi.

(** ** The claims' vocabulary *)

(** The specification's [parseExpiry], written from its words: try
    ISO-8601-with-Z, then ISO-8601-with-fractional-seconds-and-Z, then
    RFC-1123; the first that parses wins; unknown when the raw value is
    absent, empty or matches none. *)
Definition parseExpiry_spec (env : Env) (raw : option string) : option datetime :=
  match raw with
  | None => None
  | Some "" => None
  | Some s =>
      match strptime env s ISO_8601_Z with
      | Some d => Some d
      | None =>
          match strptime env s ISO_8601_FRACTION_Z with
          | Some d => Some d
          | None => strptime env s RFC_1123
          end
      end
  end.

(** The first format of a list that parses a string, if any. *)
Fixpoint first_parse (env : Env) (s : string) (fmts : list string) : option datetime :=
  match fmts with
  | [] => None
  | fmt :: rest =>
      match strptime env s fmt with
      | Some d => Some d
      | None => first_parse env s rest
      end
  end.

(** The canonical logged-out state: the address is the empty string. *)
Definition logged_out_state (w : World) : Prop :=
  LockiIdProfile.address (profile w) = "".

(** "Forces both a server-side and a local logout, leaving the session
    logged out": both calls were made and the address is empty. *)
Definition server_and_local_logout (w : World) : Prop :=
  (exists a t, In (ServerLogout a t) (log w)) /\
  (exists a, In (ProfilesLogout a) (log w)) /\
  logged_out_state w.


(** ** Proof support *)

Arguments str_truthy : simpl never.
Arguments truthy : simpl never.

Ltac unfold_py :=
  unfold bind, ret, raise, get, modify, lift, try_except_ValueError,
    final, returned, raised in *.

Ltac run :=
  unfold_py;
  unfold addon_prefs, validate_token,
    communication.locki_id_server_authenticate,
    communication.locki_id_server_validate,
    communication.locki_id_server_logout,
    profiles.save_as_active_profile, profiles.logout,
    profiles.save_json, profiles.read_json,
    mvx_requests.check_address_nonce, mvx_requests.get_nftlist_from_address,
    mvx_requests.show_message in *;
  unfold_py; unfold with_file, with_prefs, with_profile, emit in *; cbn.

Ltac flatten_log := rewrite <- ?app_assoc; cbn [app].

Lemma str_truthy_nonempty (s : string) : str_truthy s = true <-> s <> "".
Proof.
  unfold str_truthy, truthy.
  destruct s as [| c s']; cbn.
  - split; [discriminate | intros H; now elim H].
  - split; [discriminate | reflexivity].
Qed.

Lemma str_truthy_eqb (s : string) : str_truthy s = negb (String.eqb s "").
Proof. destruct s; reflexivity. Qed.

Lemma try_formats_first_parse (env : Env) (s : string) (fmts : list string) (w : World) :
  try_formats env s fmts w = Returned (first_parse env s fmts) w.
Proof.
  induction fmts as [| fmt rest IH]; cbn [try_formats first_parse].
  - reflexivity.
  - unfold try_except_ValueError, bind, datetime_strptime.
    destruct (strptime env s fmt) as [d |] eqn:Hparse; cbn.
    + reflexivity.
    + exact IH.
Qed.

(** ** The accessors and the expiry parser *)

(** C3: for every stored expiry string (and for an absent one),
    [token_expires] goes through exactly three formats, ISO-8601 with Z, then
    ISO-8601 with fractional seconds and Z, then RFC-1123; it returns what the
    first format that parses yields, and returns [None], without raising and
    without touching the session, when the value is absent, empty or matches
    none of the three. *)
Theorem token_expires_first_format_wins (env : Env) (w : World) :
  formats = [ISO_8601_Z; ISO_8601_FRACTION_Z; RFC_1123] /\
  List.length formats = 3 /\
  token_expires env w =
    Returned (parseExpiry_spec env (LockiIdProfile.expires (profile w))) w.
Proof.
  split; [reflexivity | split; [reflexivity |]].
  unfold token_expires, bind, get.
  destruct (LockiIdProfile.expires (profile w)) as [exp |]; [| reflexivity].
  destruct exp as [| c exp']; [reflexivity |].
  change (str_truthy (String c exp')) with true. cbn [negb].
  rewrite try_formats_first_parse.
  cbn [formats first_parse parseExpiry_spec].
  destruct (strptime env (String c exp') ISO_8601_Z); [reflexivity |].
  destruct (strptime env (String c exp') ISO_8601_FRACTION_Z); [reflexivity |].
  destruct (strptime env (String c exp') RFC_1123); reflexivity.
Qed.

(** C8: the empty address is the logged-out state and the accessors agree on
    it in every world: [is_logged_in] returns [True] exactly when the address
    is not the empty string, and [get_active_profile] returns [None] exactly
    when it is (and the profile itself otherwise). *)
Theorem accessors_agree_on_empty_address (w : World) :
  is_logged_in w =
    Returned (negb (String.eqb (LockiIdProfile.address (profile w)) "")) w /\
  get_active_profile w =
    Returned (if String.eqb (LockiIdProfile.address (profile w)) ""
              then None else Some (profile w)) w /\
  (returned (is_logged_in w) = Some true <->
   LockiIdProfile.address (profile w) <> "") /\
  (returned (get_active_profile w) = Some None <->
   LockiIdProfile.address (profile w) = "").
Proof.
  unfold is_logged_in, get_active_profile, bind, get, ret, returned.
  rewrite str_truthy_eqb, negb_involutive.
  destruct (String.eqb_spec (LockiIdProfile.address (profile w)) "") as [Heq | Hne];
    cbn; repeat split; intros; try congruence; try discriminate.
Qed.

(** ** [validate_token] *)

(** C4: when the identity service reports an error, [validate_token] returns
    that message and leaves the session, the file and the preferences as they
    were (only the request is logged), so the session stays logged in; when
    it reports none, [validate_token] returns [None], changes the [expires]
    field alone and saves the session to the file. *)
Theorem validate_token_keeps_session_on_failure (env : Env) (w : World) :
  let reply := validate env (LockiIdProfile.token (profile w)) in
  let asked := emit (ServerValidate (LockiIdProfile.token (profile w))) w in
  match snd reply with
  | Some err =>
      validate_token env w = Returned (Some err) asked /\
      profile asked = profile w /\ file asked = file w /\ prefs asked = prefs w
  | None =>
      let p' := LockiIdProfile.set_expires (fst reply) (profile w) in
      validate_token env w =
        Returned None
          (mkWorld p' (Stored p') (prefs w)
                   (log w ++ [ServerValidate (LockiIdProfile.token (profile w)); SaveJson])) /\
      LockiIdProfile.expires p' = fst reply /\
      LockiIdProfile.address p' = LockiIdProfile.address (profile w) /\
      LockiIdProfile.api_key p' = LockiIdProfile.api_key (profile w) /\
      LockiIdProfile.token p' = LockiIdProfile.token (profile w) /\
      LockiIdProfile.nonce p' = LockiIdProfile.nonce (profile w) /\
      LockiIdProfile.nfts p' = LockiIdProfile.nfts (profile w)
  end.
Proof.
  intros reply asked. subst reply asked.
  run.
  destruct (validate env (LockiIdProfile.token (profile w))) as [exp [err |]]; cbn.
  - repeat split.
  - flatten_log. repeat split.
Qed.

(** ** The identity operators *)

(** What the login operator does when the key is rejected and a session was
    stored: one authentication request, one [profiles.logout] of the stored
    address, a save and a reload. *)
Lemma login_failure_outcome (env : Env) (w : World) :
  success (authenticate env (LockiIdPreferences.api_key (prefs w))) = false ->
  LockiIdProfile.address (profile w) <> "" ->
  LockiIdLogin.execute env w =
    Returned FINISHED
      (mkWorld LockiIdProfile.empty (Stored LockiIdProfile.empty)
         (LockiIdPreferences.set_error_message
            (error_message (authenticate env (LockiIdPreferences.api_key (prefs w))))
            (LockiIdPreferences.reset_messages (prefs w)))
         (log w ++ [ServerAuthenticate (LockiIdPreferences.api_key (prefs w));
                    ProfilesLogout (LockiIdProfile.address (profile w));
                    SaveJson; ReadJson])).
Proof.
  intros Hfail Hstale.
  apply str_truthy_nonempty in Hstale.
  unfold LockiIdLogin.execute. run.
  rewrite Hfail. cbn. rewrite Hstale. cbn.
  flatten_log. reflexivity.
Qed.

(** What the login operator does when the key is rejected and no session was
    stored: nothing is logged out, the session is reloaded from the file. *)
Lemma login_failure_fresh_outcome (env : Env) (w : World) :
  success (authenticate env (LockiIdPreferences.api_key (prefs w))) = false ->
  LockiIdProfile.address (profile w) = "" ->
  LockiIdLogin.execute env w =
    Returned FINISHED
      (mkWorld (profiles.load (file w)) (file w)
         (LockiIdPreferences.set_error_message
            (error_message (authenticate env (LockiIdPreferences.api_key (prefs w))))
            (LockiIdPreferences.reset_messages (prefs w)))
         (log w ++ [ServerAuthenticate (LockiIdPreferences.api_key (prefs w));
                    ReadJson])).
Proof.
  intros Hfail Hfresh.
  unfold LockiIdLogin.execute. run.
  rewrite Hfail. cbn. rewrite Hfresh.
  change (str_truthy "") with false. cbn.
  flatten_log. reflexivity.
Qed.

(** What the login operator does when the key is accepted. *)
Lemma login_success_outcome (env : Env) (w : World) :
  success (authenticate env (LockiIdPreferences.api_key (prefs w))) = true ->
  let p' :=
    LockiIdProfile.mk (LockiIdPreferences.address (prefs w))
      (LockiIdPreferences.api_key (prefs w))
      (auth_token (authenticate env (LockiIdPreferences.api_key (prefs w))))
      None (PyStr "0") (PyDict []) in
  LockiIdLogin.execute env w =
    Returned FINISHED
      (mkWorld p' (Stored p')
         (LockiIdPreferences.set_ok_message "Logged in"
            (LockiIdPreferences.reset_messages (prefs w)))
         (log w ++ [ServerAuthenticate (LockiIdPreferences.api_key (prefs w));
                    SaveAsActiveProfile (LockiIdPreferences.address (prefs w));
                    SaveJson; ReadJson])).
Proof.
  intros Hok p'. subst p'.
  unfold LockiIdLogin.execute. run.
  rewrite Hok. cbn.
  flatten_log. reflexivity.
Qed.

(** What the validate operator does, on either reply of the service. *)
Lemma validate_outcome (env : Env) (w : World) :
  let tok := LockiIdProfile.token (profile w) in
  LockiIdValidate.execute env w =
    match snd (validate env tok) with
    | Some err =>
        Returned FINISHED
          (mkWorld (profiles.load (file w)) (file w)
             (LockiIdPreferences.set_error_message
                (err ++ "; you probably want to log out and log in again")
                (LockiIdPreferences.reset_messages (prefs w)))
             (log w ++ [ServerValidate tok; ReadJson]))
    | None =>
        let p' := LockiIdProfile.set_expires (fst (validate env tok)) (profile w) in
        Returned FINISHED
          (mkWorld p' (Stored p')
             (LockiIdPreferences.set_ok_message "Authentication token is valid"
                (LockiIdPreferences.reset_messages (prefs w)))
             (log w ++ [ServerValidate tok; SaveJson; ReadJson]))
    end.
Proof.
  intros tok. subst tok.
  unfold LockiIdValidate.execute. run.
  destruct (validate env (LockiIdProfile.token (profile w))) as [exp [err |]]; cbn;
    flatten_log; reflexivity.
Qed.

(** What the logout operator does: the server's answer is dropped. *)
Lemma logout_outcome (env : Env) (w : World) :
  LockiIdLogout.execute env w =
    Returned FINISHED
      (mkWorld LockiIdProfile.empty (Stored LockiIdProfile.empty)
         (LockiIdPreferences.set_ok_message "You have been logged out"
            (LockiIdPreferences.reset_messages (prefs w)))
         (log w ++ [ServerLogout (LockiIdProfile.address (profile w))
                                 (LockiIdProfile.token (profile w));
                    ProfilesLogout (LockiIdProfile.address (profile w));
                    SaveJson; ReadJson])).
Proof.
  unfold LockiIdLogout.execute. run.
  flatten_log. reflexivity.
Qed.

(** C1 (amended): when a login fails while an address was stored, the login
    operator returns normally after forcing a local logout of the stored
    address ([profiles.logout], then the reload): the session ends logged
    out, in memory and in the file, and the error message is shown.  The only
    request sent to the identity service is the authentication itself. *)
Theorem login_failure_forces_local_logout (env : Env) (w : World) :
  success (authenticate env (LockiIdPreferences.api_key (prefs w))) = false ->
  LockiIdProfile.address (profile w) <> "" ->
  exists w',
    LockiIdLogin.execute env w = Returned FINISHED w' /\
    log w' = (log w ++ [ServerAuthenticate (LockiIdPreferences.api_key (prefs w));
                        ProfilesLogout (LockiIdProfile.address (profile w));
                        SaveJson; ReadJson])%list /\
    logged_out_state w' /\
    profile w' = LockiIdProfile.empty /\
    file w' = Stored LockiIdProfile.empty /\
    LockiIdPreferences.error_message (prefs w') =
      error_message (authenticate env (LockiIdPreferences.api_key (prefs w))).
Proof.
  intros Hfail Hstale.
  eexists. split.
  - apply login_failure_outcome; assumption.
  - cbn. repeat split.
Qed.

Lemma login_failure_forces_local_logout_witness :
  exists w',
    LockiIdLogin.execute Sample.failing Sample.logged_in = Returned FINISHED w' /\
    log w' = [ServerAuthenticate "key-bob"; ProfilesLogout Sample.alice;
              SaveJson; ReadJson] /\
    logged_out_state w' /\
    profile w' = LockiIdProfile.empty /\
    file w' = Stored LockiIdProfile.empty /\
    LockiIdPreferences.error_message (prefs w') = "Invalid API key".
Proof.
  apply (login_failure_forces_local_logout Sample.failing Sample.logged_in).
  - reflexivity.
  - discriminate.
Defined.

(** C1 as stated fails: [Sample.failing] rejects the key while [alice]'s
    session is stored, and the run logs no server-side logout. *)
Lemma login_failure_sends_no_server_logout :
  success (authenticate Sample.failing
             (LockiIdPreferences.api_key (prefs Sample.logged_in))) = false /\
  LockiIdProfile.address (profile Sample.logged_in) <> "" /\
  ~ server_and_local_logout
      (final (LockiIdLogin.execute Sample.failing Sample.logged_in)).
Proof.
  split; [reflexivity | split; [discriminate |]].
  intros [[a [t Hin]] _].
  vm_compute in Hin.
  repeat (destruct Hin as [Hin | Hin]; [discriminate Hin |]).
  exact Hin.
Qed.

(** C5: the logout operator ends logged out from every state, a logged-in
    one included, whatever the server answered to the invalidation request:
    the local store is cleared and saved, and the reloaded session has the
    empty address. *)
Theorem logout_always_ends_logged_out (env : Env) (w : World) :
  exists w',
    LockiIdLogout.execute env w = Returned FINISHED w' /\
    In (ServerLogout (LockiIdProfile.address (profile w))
                     (LockiIdProfile.token (profile w))) (log w') /\
    In (ProfilesLogout (LockiIdProfile.address (profile w))) (log w') /\
    logged_out_state w' /\
    profile w' = LockiIdProfile.empty /\
    file w' = Stored LockiIdProfile.empty.
Proof.
  eexists. split; [apply logout_outcome |].
  cbn. repeat split; apply in_or_app; right; cbn; auto.
Qed.

(** C10: login, validate and logout return [{'FINISHED'}] in every world and
    for every reply of the identity service; a failure shows only in the
    preferences' messages: the service's message after a rejected login, the
    validation error followed by the advice to log in again after a failed
    validation. *)
Theorem identity_operators_return_finished (env : Env) (w : World) :
  returned (LockiIdLogin.execute env w) = Some FINISHED /\
  returned (LockiIdValidate.execute env w) = Some FINISHED /\
  returned (LockiIdLogout.execute env w) = Some FINISHED /\
  LockiIdPreferences.error_message (prefs (final (LockiIdLogin.execute env w))) =
    (let r := authenticate env (LockiIdPreferences.api_key (prefs w)) in
     if success r then "" else error_message r) /\
  LockiIdPreferences.error_message (prefs (final (LockiIdValidate.execute env w))) =
    match snd (validate env (LockiIdProfile.token (profile w))) with
    | Some err => err ++ "; you probably want to log out and log in again"
    | None => ""
    end.
Proof.
  rewrite validate_outcome, logout_outcome.
  destruct (success (authenticate env (LockiIdPreferences.api_key (prefs w)))) eqn:Hauth.
  - rewrite (login_success_outcome env w Hauth). cbn.
    destruct (snd (validate env (LockiIdProfile.token (profile w)))); cbn;
      rewrite ?Hauth; repeat split.
  - destruct (string_dec (LockiIdProfile.address (profile w)) "") as [Hfresh | Hstale].
    + rewrite (login_failure_fresh_outcome env w Hauth Hfresh). cbn.
      destruct (snd (validate env (LockiIdProfile.token (profile w)))); cbn;
      rewrite ?Hauth; repeat split.
    + rewrite (login_failure_outcome env w Hauth Hstale). cbn.
      destruct (snd (validate env (LockiIdProfile.token (profile w)))); cbn;
      rewrite ?Hauth; repeat split.
Qed.

(** ** The ledger operators *)

(** A falsy value has no ['nonce'] entry to read: subscripting it raises. *)
Lemma falsy_subscript_raises (v : pyval) :
  truthy v = false ->
  exists e, getitem v "nonce" = inr e /\ (e = TypeError \/ e = KeyError "nonce").
Proof.
  intros Hfalsy.
  destruct v as [| b | z | s | l | d]; cbn [getitem];
    try (exists TypeError; split; [reflexivity | now left]).
  destruct d as [| kv d'].
  - exists (KeyError "nonce"). split; [reflexivity | now right].
  - discriminate Hfalsy.
Qed.

(** What the refresh-nonce operator does when the ledger's reply is falsy:
    the guarded block is skipped and the message line, which reads
    [result['nonce']] outside the guard, raises. *)
Lemma get_nonce_falsy_outcome (env : Env) (w : World) :
  truthy (account_nonce env (LockiIdProfile.address (profile w))) = false ->
  exists e,
    (e = TypeError \/ e = KeyError "nonce") /\
    UTILS_OT_get_nonce.execute env w =
      Raised e
        (mkWorld (profile w) (file w)
           (LockiIdPreferences.reset_messages (prefs w))
           (log w ++ [LedgerNonce (LockiIdProfile.address (profile w))])).
Proof.
  intros Hfalsy.
  destruct (falsy_subscript_raises _ Hfalsy) as [e [Hget He]].
  exists e. split; [exact He |].
  unfold UTILS_OT_get_nonce.execute. run.
  rewrite Hfalsy, Hget. reflexivity.
Qed.

(** What the refresh-nonce operator does when the ledger replies with an
    object whose nonce is an integer the host can hold. *)
Lemma get_nonce_success_outcome (env : Env) (w : World) (d : list (string * pyval)) (z : Z) :
  account_nonce env (LockiIdProfile.address (profile w)) = PyDict d ->
  dict_get "nonce" d = Some (PyInt z) ->
  (- 2147483648 <= z <= 2147483647)%Z ->
  let a := LockiIdProfile.address (profile w) in
  let p' := LockiIdProfile.set_nonce (PyInt z) (profile w) in
  UTILS_OT_get_nonce.execute env w =
    Returned FINISHED
      (mkWorld p' (Stored p')
         (LockiIdPreferences.set_nonce z (LockiIdPreferences.reset_messages (prefs w)))
         (log w ++ [LedgerNonce a; SaveJson;
                    ShowMessage a ("Nonce: " ++ str_of_Z z); ReadJson])).
Proof.
  intros Hreply Hnonce Hrange a p'. subst a p'.
  assert (Htruthy : truthy (PyDict d) = true).
  { destruct d; [discriminate Hnonce | reflexivity]. }
  assert (Hfits : (Z.leb (- 2147483648) z && Z.leb z 2147483647)%bool = true).
  { apply andb_true_iff; split; apply Z.leb_le; lia. }
  unfold UTILS_OT_get_nonce.execute. run.
  rewrite Hreply, Htruthy. cbn. rewrite Hnonce. cbn.
  rewrite Hfits. cbn.
  flatten_log. reflexivity.
Qed.

(** What the refresh-NFTs operator does once it has a list of URLs. *)
Lemma get_nfts_outcome (env : Env) (w : World) (urls : list string) :
  mvx_requests.urllist_of_lookup env
    (account_nfts env (LockiIdProfile.address (profile w))) = inl urls ->
  let a := LockiIdProfile.address (profile w) in
  let p' := LockiIdProfile.set_nfts (PyList (List.map PyStr urls)) (profile w) in
  UTILS_OT_get_nfts.execute env w =
    Returned FINISHED
      (mkWorld p' (Stored p')
         (LockiIdPreferences.set_ok_message "You have loaded the NFTs"
            (LockiIdPreferences.reset_messages (prefs w)))
         (log w ++ [LedgerNfts a;
                    ShowMessage a
                      (str_of_nat (List.length (transform_nft_urls_in_menu env urls))
                       ++ " NFTs loaded");
                    SaveJson; ReadJson])).
Proof.
  intros Hurls a p'. subst a p'.
  unfold UTILS_OT_get_nfts.execute. run.
  rewrite Hurls. cbn.
  flatten_log. reflexivity.
Qed.

(** What the refresh-NFTs operator does when the lookup succeeded. *)
Lemma get_nfts_records_outcome (env : Env) (w : World) (records : list NftRecord) :
  account_nfts env (LockiIdProfile.address (profile w)) = Some records ->
  let a := LockiIdProfile.address (profile w) in
  let urls := mvx_requests.get_urllist_from_list records in
  let p' := LockiIdProfile.set_nfts (PyList (List.map PyStr urls)) (profile w) in
  UTILS_OT_get_nfts.execute env w =
    Returned FINISHED
      (mkWorld p' (Stored p')
         (LockiIdPreferences.set_ok_message "You have loaded the NFTs"
            (LockiIdPreferences.reset_messages (prefs w)))
         (log w ++ [LedgerNfts a;
                    ShowMessage a
                      (str_of_nat (List.length (transform_nft_urls_in_menu env urls))
                       ++ " NFTs loaded");
                    SaveJson; ReadJson])).
Proof.
  intros Hfound a urls p'. subst a urls p'.
  apply get_nfts_outcome.
  rewrite Hfound. reflexivity.
Qed.

(** What the refresh-NFTs operator does when the URL helper raises on the
    value of a failed lookup: nothing is stored, shown or reloaded. *)
Lemma get_nfts_raise_outcome (env : Env) (w : World) (e : exn) :
  mvx_requests.urllist_of_lookup env
    (account_nfts env (LockiIdProfile.address (profile w))) = inr e ->
  UTILS_OT_get_nfts.execute env w =
    Raised e
      (mkWorld (profile w) (file w)
         (LockiIdPreferences.reset_messages (prefs w))
         (log w ++ [LedgerNfts (LockiIdProfile.address (profile w))])).
Proof.
  intros Hurls.
  unfold UTILS_OT_get_nfts.execute. run.
  rewrite Hurls. reflexivity.
Qed.

(** Login, validate and logout all end by [read_json], on every path; so
    does refresh-NFTs once it has a list of URLs. *)
Lemma operators_reload_when_they_return (env : Env) (w : World) :
  (exists evs, log (final (LockiIdLogin.execute env w)) = (log w ++ evs ++ [ReadJson])%list) /\
  (exists evs, log (final (LockiIdValidate.execute env w)) = (log w ++ evs ++ [ReadJson])%list) /\
  (exists evs, log (final (LockiIdLogout.execute env w)) = (log w ++ evs ++ [ReadJson])%list) /\
  (forall urls,
     mvx_requests.urllist_of_lookup env
       (account_nfts env (LockiIdProfile.address (profile w))) = inl urls ->
     exists evs,
       log (final (UTILS_OT_get_nfts.execute env w)) = (log w ++ evs ++ [ReadJson])%list).
Proof.
  repeat split.
  - destruct (success (authenticate env (LockiIdPreferences.api_key (prefs w)))) eqn:Hauth.
    + rewrite (login_success_outcome env w Hauth). cbn.
      eexists [_; _; _]. reflexivity.
    + destruct (string_dec (LockiIdProfile.address (profile w)) "") as [Hfresh | Hstale].
      * rewrite (login_failure_fresh_outcome env w Hauth Hfresh). cbn.
        eexists [_]. reflexivity.
      * rewrite (login_failure_outcome env w Hauth Hstale). cbn.
        eexists [_; _; _]. reflexivity.
  - rewrite validate_outcome.
    destruct (snd (validate env (LockiIdProfile.token (profile w)))); cbn.
    + eexists [_]. reflexivity.
    + eexists [_; _]. reflexivity.
  - rewrite logout_outcome. cbn. eexists [_; _; _]. reflexivity.
  - intros urls Hurls.
    rewrite (get_nfts_outcome env w urls Hurls). cbn.
    eexists [_; _; _]. reflexivity.
Qed.

(** C2: when the ledger lookup fails (the reply is falsy), the refresh-nonce
    operator raises: [TypeError] for [None], [False], [0], [''] or [[]],
    [KeyError] for an empty object.  No message is shown; the session and the
    file are as they were. *)
Theorem get_nonce_raises_on_failed_lookup (env : Env) (w : World) :
  truthy (account_nonce env (LockiIdProfile.address (profile w))) = false ->
  let r := UTILS_OT_get_nonce.execute env w in
  returned r = None /\
  (raised r = Some TypeError \/ raised r = Some (KeyError "nonce")) /\
  log (final r) = (log w ++ [LedgerNonce (LockiIdProfile.address (profile w))])%list /\
  profile (final r) = profile w /\
  file (final r) = file w.
Proof.
  intros Hfalsy r. subst r.
  destruct (get_nonce_falsy_outcome env w Hfalsy) as [e [He Hrun]].
  rewrite Hrun. cbn.
  repeat split.
  destruct He as [-> | ->]; [now left | now right].
Qed.

Lemma get_nonce_raises_on_failed_lookup_witness :
  let r := UTILS_OT_get_nonce.execute Sample.failing Sample.logged_in in
  returned r = None /\
  (raised r = Some TypeError \/ raised r = Some (KeyError "nonce")) /\
  log (final r) = [LedgerNonce Sample.alice] /\
  profile (final r) = Sample.alice_session /\
  file (final r) = Stored Sample.alice_session.
Proof.
  apply (get_nonce_raises_on_failed_lookup Sample.failing Sample.logged_in).
  reflexivity.
Defined.

(** C6: a successful login leaves the string ["0"] in the session's nonce
    field, in memory and in the file, not the integer [0]. *)
Theorem login_stores_string_nonce (env : Env) (w : World) :
  success (authenticate env (LockiIdPreferences.api_key (prefs w))) = true ->
  let w' := final (LockiIdLogin.execute env w) in
  LockiIdProfile.nonce (profile w') = PyStr "0" /\
  is_nonneg_int (LockiIdProfile.nonce (profile w')) = false /\
  (exists s, file w' = Stored s /\ LockiIdProfile.nonce s = PyStr "0").
Proof.
  intros Hok w'. subst w'.
  rewrite (login_success_outcome env w Hok). cbn.
  repeat split. eexists. split; reflexivity.
Qed.

Lemma login_stores_string_nonce_witness :
  let w' := final (LockiIdLogin.execute Sample.working Sample.logged_out) in
  LockiIdProfile.nonce (profile w') = PyStr "0" /\
  is_nonneg_int (LockiIdProfile.nonce (profile w')) = false /\
  (exists s, file w' = Stored s /\ LockiIdProfile.nonce s = PyStr "0").
Proof.
  apply (login_stores_string_nonce Sample.working Sample.logged_out).
  reflexivity.
Defined.

(** C7: with a failing ledger lookup the refresh-nonce operator stops at the
    [TypeError] of its message line: the only logged call is the lookup, and
    [read_json] is never reached. *)
Theorem get_nonce_failure_skips_reload :
  let r := UTILS_OT_get_nonce.execute Sample.failing Sample.logged_in in
  raised r = Some TypeError /\
  log (final r) = [LedgerNonce Sample.alice] /\
  ~ In ReadJson (log (final r)).
Proof.
  cbv zeta. split; [reflexivity | split; [reflexivity |]].
  intros Hin. vm_compute in Hin.
  destruct Hin as [Hin | []]. discriminate Hin.
Qed.




(** X3: the validate operator as a whole: when the file holds the session
    in memory, a failed validation leaves the user logged in with the same
    session, the reload included, and shows the error followed by the advice
    to log in again. *)
Lemma validate_failure_stays_logged_in (env : Env) (w : World) (err : string) :
  file w = Stored (profile w) ->
  snd (validate env (LockiIdProfile.token (profile w))) = Some err ->
  let w' := final (LockiIdValidate.execute env w) in
  profile w' = profile w /\
  file w' = file w /\
  LockiIdPreferences.error_message (prefs w') =
    err ++ "; you probably want to log out and log in again".
Proof.
  intros Hsync Herr w'. subst w'.
  rewrite validate_outcome, Herr. cbn.
  rewrite Hsync. cbn. repeat split.
Qed.

(** ** Further properties of the operators *)

(** A value with a ['nonce'] entry is a non-empty dict, hence truthy. *)
Lemma subscript_ok_truthy (v x : pyval) (k : string) :
  getitem v k = inl x -> truthy v = true.
Proof.
  destruct v as [| b | z | s | l | d]; cbn [getitem]; try discriminate.
  destruct d as [| kv d']; [cbn; discriminate | reflexivity].
Qed.

(** The refresh-nonce operator on a truthy reply that cannot be subscripted
    with ['nonce']: the first statement of the guarded block raises. *)
Lemma get_nonce_no_entry_outcome (env : Env) (w : World) (e : exn) :
  truthy (account_nonce env (LockiIdProfile.address (profile w))) = true ->
  getitem (account_nonce env (LockiIdProfile.address (profile w))) "nonce" = inr e ->
  UTILS_OT_get_nonce.execute env w =
    Raised e
      (mkWorld (profile w) (file w)
         (LockiIdPreferences.reset_messages (prefs w))
         (log w ++ [LedgerNonce (LockiIdProfile.address (profile w))])).
Proof.
  intros Htruthy Hget.
  unfold UTILS_OT_get_nonce.execute. run.
  rewrite Htruthy, Hget. reflexivity.
Qed.

(** The refresh-nonce operator on a reply whose nonce the host's integer
    property refuses: the session in memory already holds the value, the
    file does not. *)
Lemma get_nonce_refused_outcome (env : Env) (w : World) (v : pyval) (e : exn) :
  getitem (account_nonce env (LockiIdProfile.address (profile w))) "nonce" = inl v ->
  int_property v = inr e ->
  UTILS_OT_get_nonce.execute env w =
    Raised e
      (mkWorld (LockiIdProfile.set_nonce v (profile w)) (file w)
         (LockiIdPreferences.reset_messages (prefs w))
         (log w ++ [LedgerNonce (LockiIdProfile.address (profile w))])).
Proof.
  intros Hget Hint.
  pose proof (subscript_ok_truthy _ _ _ Hget) as Htruthy.
  unfold UTILS_OT_get_nonce.execute. run.
  rewrite Htruthy, Hget. cbn. rewrite Hint. reflexivity.
Qed.

(** The refresh-nonce operator on a reply whose nonce the host accepts. *)
Lemma get_nonce_accepted_outcome (env : Env) (w : World) (v : pyval) (z : Z) :
  getitem (account_nonce env (LockiIdProfile.address (profile w))) "nonce" = inl v ->
  int_property v = inl z ->
  let a := LockiIdProfile.address (profile w) in
  let p' := LockiIdProfile.set_nonce v (profile w) in
  UTILS_OT_get_nonce.execute env w =
    Returned FINISHED
      (mkWorld p' (Stored p')
         (LockiIdPreferences.set_nonce z (LockiIdPreferences.reset_messages (prefs w)))
         (log w ++ [LedgerNonce a; SaveJson;
                    ShowMessage a ("Nonce: " ++ str v); ReadJson])).
Proof.
  intros Hget Hint a p'. subst a p'.
  pose proof (subscript_ok_truthy _ _ _ Hget) as Htruthy.
  unfold UTILS_OT_get_nonce.execute. run.
  rewrite Htruthy, Hget. cbn. rewrite Hint. cbn.
  flatten_log. reflexivity.
Qed.

(** The four ways a run of the refresh-nonce operator can go. *)
Lemma get_nonce_cases (env : Env) (w : World) :
  let reply := account_nonce env (LockiIdProfile.address (profile w)) in
  (exists e, UTILS_OT_get_nonce.execute env w =
               Raised e
                 (mkWorld (profile w) (file w)
                    (LockiIdPreferences.reset_messages (prefs w))
                    (log w ++ [LedgerNonce (LockiIdProfile.address (profile w))])) /\
             forall v, getitem reply "nonce" <> inl v) \/
  (exists v e, getitem reply "nonce" = inl v /\ int_property v = inr e /\
               UTILS_OT_get_nonce.execute env w =
                 Raised e
                   (mkWorld (LockiIdProfile.set_nonce v (profile w)) (file w)
                      (LockiIdPreferences.reset_messages (prefs w))
                      (log w ++ [LedgerNonce (LockiIdProfile.address (profile w))]))) \/
  (exists v z, getitem reply "nonce" = inl v /\ int_property v = inl z /\
               UTILS_OT_get_nonce.execute env w =
                 Returned FINISHED
                   (mkWorld (LockiIdProfile.set_nonce v (profile w))
                      (Stored (LockiIdProfile.set_nonce v (profile w)))
                      (LockiIdPreferences.set_nonce z
                         (LockiIdPreferences.reset_messages (prefs w)))
                      (log w ++ [LedgerNonce (LockiIdProfile.address (profile w));
                                 SaveJson;
                                 ShowMessage (LockiIdProfile.address (profile w))
                                   ("Nonce: " ++ str v);
                                 ReadJson]))).
Proof.
  intros reply. subst reply.
  destruct (getitem (account_nonce env (LockiIdProfile.address (profile w))) "nonce")
    as [v | e] eqn:Hget.
  - destruct (int_property v) as [z | e] eqn:Hint.
    + right; right. exists v, z.
      split; [reflexivity | split; [exact Hint |]].
      apply get_nonce_accepted_outcome; assumption.
    + right; left. exists v, e.
      split; [reflexivity | split; [exact Hint |]].
      apply get_nonce_refused_outcome; assumption.
  - left.
    destruct (truthy (account_nonce env (LockiIdProfile.address (profile w))))
      eqn:Htruthy.
    + exists e. split; [| discriminate].
      apply get_nonce_no_entry_outcome; assumption.
    + destruct (get_nonce_falsy_outcome env w Htruthy) as [e' [_ Hrun]].
      exists e'. split; [exact Hrun | discriminate].
Qed.

(** The login operator always returns, and ends with the session loaded
    from the file. *)
Lemma login_returns_and_reloads (env : Env) (w : World) :
  returned (LockiIdLogin.execute env w) = Some FINISHED /\
  profile (final (LockiIdLogin.execute env w)) =
    profiles.load (file (final (LockiIdLogin.execute env w))).
Proof.
  destruct (success (authenticate env (LockiIdPreferences.api_key (prefs w)))) eqn:Hauth.
  - rewrite (login_success_outcome env w Hauth). split; reflexivity.
  - destruct (string_dec (LockiIdProfile.address (profile w)) "") as [Hfresh | Hstale].
    + rewrite (login_failure_fresh_outcome env w Hauth Hfresh). split; reflexivity.
    + rewrite (login_failure_outcome env w Hauth Hstale). split; reflexivity.
Qed.

(** X1: whatever the outcome of an operator, the preferences never hold both
    a success and an error message afterwards: [addon_prefs] clears both
    before the operator sets at most one. *)
Theorem operators_show_at_most_one_message (env : Env) (w : World) :
  let one_message (r : outcome (list string)) :=
    LockiIdPreferences.ok_message (prefs (final r)) = "" \/
    LockiIdPreferences.error_message (prefs (final r)) = "" in
  one_message (LockiIdLogin.execute env w) /\
  one_message (LockiIdValidate.execute env w) /\
  one_message (LockiIdLogout.execute env w) /\
  one_message (UTILS_OT_get_nonce.execute env w) /\
  one_message (UTILS_OT_get_nfts.execute env w).
Proof.
  cbv zeta.
  rewrite validate_outcome, logout_outcome.
  repeat split.
  - destruct (success (authenticate env (LockiIdPreferences.api_key (prefs w)))) eqn:Hauth.
    + rewrite (login_success_outcome env w Hauth). now right.
    + destruct (string_dec (LockiIdProfile.address (profile w)) "") as [Hfresh | Hstale].
      * rewrite (login_failure_fresh_outcome env w Hauth Hfresh). now left.
      * rewrite (login_failure_outcome env w Hauth Hstale). now left.
  - destruct (snd (validate env (LockiIdProfile.token (profile w)))); [now left | now right].
  - now right.
  - destruct (get_nonce_cases env w)
      as [[e [Hrun _]] | [[v [e [_ [_ Hrun]]]] | [v [z [_ [_ Hrun]]]]]];
      rewrite Hrun; now left.
  - destruct (mvx_requests.urllist_of_lookup env
                (account_nfts env (LockiIdProfile.address (profile w))))
      as [urls | e] eqn:Hurls.
    + rewrite (get_nfts_outcome env w urls Hurls). now right.
    + rewrite (get_nfts_raise_outcome env w e Hurls). now left.
Qed.

(** X2: login, validate and logout return [{'FINISHED'}] in every world, and
    refresh-NFTs does whenever the ledger lookup succeeded; whenever one of
    the four has returned, it returned [{'FINISHED'}] and the session in
    memory is the one the file yields on loading. *)
Theorem session_operators_end_in_agreement_with_file (env : Env) (w : World) :
  let settled (r : outcome (list string)) :=
    returned r = Some FINISHED /\
    profile (final r) = profiles.load (file (final r)) in
  settled (LockiIdLogin.execute env w) /\
  settled (LockiIdValidate.execute env w) /\
  settled (LockiIdLogout.execute env w) /\
  (account_nfts env (LockiIdProfile.address (profile w)) <> None ->
   settled (UTILS_OT_get_nfts.execute env w)) /\
  (returned (UTILS_OT_get_nfts.execute env w) <> None ->
   settled (UTILS_OT_get_nfts.execute env w)).
Proof.
  cbv zeta.
  rewrite validate_outcome, logout_outcome.
  split; [apply login_returns_and_reloads |].
  split; [destruct (snd (validate env (LockiIdProfile.token (profile w))));
          split; reflexivity |].
  split; [split; reflexivity |].
  split.
  - intros Hfound.
    destruct (account_nfts env (LockiIdProfile.address (profile w)))
      as [records |] eqn:Hrecords; [| now elim Hfound].
    rewrite (get_nfts_records_outcome env w records Hrecords).
    split; reflexivity.
  - intros Hret.
    destruct (mvx_requests.urllist_of_lookup env
                (account_nfts env (LockiIdProfile.address (profile w))))
      as [urls | e] eqn:Hurls.
    + rewrite (get_nfts_outcome env w urls Hurls). split; reflexivity.
    + rewrite (get_nfts_raise_outcome env w e Hurls) in Hret. now elim Hret.
Qed.

Lemma session_operators_end_in_agreement_with_file_witness :
  let settled (r : outcome (list string)) :=
    returned r = Some FINISHED /\
    profile (final r) = profiles.load (file (final r)) in
  settled (LockiIdLogin.execute Sample.working Sample.logged_in) /\
  settled (LockiIdValidate.execute Sample.working Sample.logged_in) /\
  settled (LockiIdLogout.execute Sample.working Sample.logged_in) /\
  settled (UTILS_OT_get_nfts.execute Sample.working Sample.logged_in).
Proof.
  destruct (session_operators_end_in_agreement_with_file Sample.working Sample.logged_in)
    as [Hlogin [Hvalidate [Hlogout [Hnfts _]]]].
  split; [exact Hlogin |].
  split; [exact Hvalidate |].
  split; [exact Hlogout |].
  apply Hnfts. discriminate.
Defined.

Lemma validate_failure_stays_logged_in_witness :
  let w' := final (LockiIdValidate.execute Sample.failing Sample.logged_in) in
  profile w' = Sample.alice_session /\
  file w' = Stored Sample.alice_session /\
  LockiIdPreferences.error_message (prefs w') =
    "Token expired; you probably want to log out and log in again".
Proof.
  apply (validate_failure_stays_logged_in Sample.failing Sample.logged_in "Token expired");
    reflexivity.
Defined.

(** X4: a failed validation still ends with the reload, so when the profile
    file is missing or unreadable the validate operator leaves the user
    logged out although the session in memory was never cleared. *)
Theorem validate_failure_without_file_logs_out (env : Env) (w : World) (err : string) :
  snd (validate env (LockiIdProfile.token (profile w))) = Some err ->
  file w = Missing \/ file w = Malformed ->
  let r := LockiIdValidate.execute env w in
  returned r = Some FINISHED /\
  profile (final r) = LockiIdProfile.empty /\
  returned (is_logged_in (final r)) = Some false /\
  ~ In SaveJson (skipn (List.length (log w)) (log (final r))).
Proof.
  intros Herr Hfile r. subst r.
  rewrite validate_outcome, Herr. cbn.
  rewrite skipn_app, skipn_all, Nat.sub_diag. cbn.
  repeat split.
  - destruct Hfile as [-> | ->]; reflexivity.
  - destruct Hfile as [-> | ->]; reflexivity.
  - intros [Hin | [Hin | []]]; discriminate Hin.
Qed.

Lemma validate_failure_without_file_logs_out_witness :
  let r := LockiIdValidate.execute Sample.failing SampleUi.file_lost in
  returned r = Some FINISHED /\
  profile (final r) = LockiIdProfile.empty /\
  returned (is_logged_in (final r)) = Some false /\
  ~ In SaveJson (skipn (List.length (log SampleUi.file_lost)) (log (final r))).
Proof.
  apply (validate_failure_without_file_logs_out Sample.failing SampleUi.file_lost
           "Token expired").
  - reflexivity.
  - left. reflexivity.
Defined.

(** X5: an accepted login sends the identity service the API key and nothing
    else, makes no logout call for a session it replaces, and stores the
    address and the key exactly as typed in the preferences; the user then
    counts as logged in exactly when the typed address is not empty. *)
Theorem login_success_stores_typed_address (env : Env) (w : World) :
  success (authenticate env (LockiIdPreferences.api_key (prefs w))) = true ->
  let r := LockiIdLogin.execute env w in
  LockiIdProfile.address (profile (final r)) = LockiIdPreferences.address (prefs w) /\
  LockiIdProfile.api_key (profile (final r)) = LockiIdPreferences.api_key (prefs w) /\
  LockiIdProfile.token (profile (final r)) =
    auth_token (authenticate env (LockiIdPreferences.api_key (prefs w))) /\
  log (final r) =
    (log w ++ [ServerAuthenticate (LockiIdPreferences.api_key (prefs w));
               SaveAsActiveProfile (LockiIdPreferences.address (prefs w));
               SaveJson; ReadJson])%list /\
  returned (is_logged_in (final r)) =
    Some (negb (String.eqb (LockiIdPreferences.address (prefs w)) "")) /\
  LockiIdPreferences.ok_message (prefs (final r)) = "Logged in".
Proof.
  intros Hok r. subst r.
  rewrite (login_success_outcome env w Hok). cbn.
  repeat split.
Qed.

Lemma login_success_stores_typed_address_witness :
  let r := LockiIdLogin.execute Sample.working Sample.logged_in in
  LockiIdProfile.address (profile (final r)) = Sample.bob /\
  LockiIdProfile.api_key (profile (final r)) = "key-bob" /\
  LockiIdProfile.token (profile (final r)) = "tok-new" /\
  log (final r) =
    [ServerAuthenticate "key-bob"; SaveAsActiveProfile Sample.bob; SaveJson; ReadJson] /\
  returned (is_logged_in (final r)) = Some true /\
  LockiIdPreferences.ok_message (prefs (final r)) = "Logged in".
Proof.
  apply (login_success_stores_typed_address Sample.working Sample.logged_in).
  reflexivity.
Defined.

(** X6: the logout operator does not look at the server's answer: two
    identity services that answer differently lead to the same outcome, which
    always announces 'You have been logged out' and never an error. *)
Theorem logout_ignores_server_reply (env1 env2 : Env) (w : World) :
  LockiIdLogout.execute env1 w = LockiIdLogout.execute env2 w /\
  LockiIdPreferences.ok_message (prefs (final (LockiIdLogout.execute env1 w))) =
    "You have been logged out" /\
  LockiIdPreferences.error_message (prefs (final (LockiIdLogout.execute env1 w))) = "".
Proof.
  rewrite !logout_outcome. repeat split.
Qed.


(** X8: when the ledger's nonce is accepted, the refresh-nonce operator
    stores it in the session, in the file and in the preferences, shows it
    under the address, and changes no other field of the session. *)
Theorem get_nonce_stores_accepted_nonce (env : Env) (w : World) (v : pyval) (z : Z) :
  getitem (account_nonce env (LockiIdProfile.address (profile w))) "nonce" = inl v ->
  int_property v = inl z ->
  let w' := final (UTILS_OT_get_nonce.execute env w) in
  LockiIdProfile.nonce (profile w') = v /\
  LockiIdPreferences.nonce (prefs w') = z /\
  file w' = Stored (profile w') /\
  In (ShowMessage (LockiIdProfile.address (profile w)) ("Nonce: " ++ str v)) (log w') /\
  LockiIdProfile.address (profile w') = LockiIdProfile.address (profile w) /\
  LockiIdProfile.api_key (profile w') = LockiIdProfile.api_key (profile w) /\
  LockiIdProfile.token (profile w') = LockiIdProfile.token (profile w) /\
  LockiIdProfile.expires (profile w') = LockiIdProfile.expires (profile w) /\
  LockiIdProfile.nfts (profile w') = LockiIdProfile.nfts (profile w).
Proof.
  intros Hget Hint w'. subst w'.
  rewrite (get_nonce_accepted_outcome env w v z Hget Hint). cbn.
  repeat split.
  apply in_or_app. right. cbn. auto.
Qed.

Lemma get_nonce_stores_accepted_nonce_witness :
  let w' := final (UTILS_OT_get_nonce.execute Sample.working Sample.logged_in) in
  LockiIdProfile.nonce (profile w') = PyInt 12 /\
  LockiIdPreferences.nonce (prefs w') = 12%Z /\
  file w' = Stored (profile w') /\
  In (ShowMessage Sample.alice "Nonce: 12") (log w') /\
  LockiIdProfile.address (profile w') = Sample.alice /\
  LockiIdProfile.api_key (profile w') = "key-alice" /\
  LockiIdProfile.token (profile w') = "tok-alice" /\
  LockiIdProfile.expires (profile w') = Some "2024-05-01T10:00:00Z" /\
  LockiIdProfile.nfts (profile w') = PyList [PyStr "https://nft.example/1"].
Proof.
  apply (get_nonce_stores_accepted_nonce Sample.working Sample.logged_in (PyInt 12) 12%Z);
    reflexivity.
Defined.

(** X9: when the host refuses the ledger's nonce (a string, say), the
    refresh-nonce operator raises after the session in memory has taken the
    value and before anything is saved, shown or reloaded: memory and file
    then differ in the nonce. *)
Theorem get_nonce_refused_nonce_half_set (env : Env) (w : World) (v : pyval) (e : exn) :
  getitem (account_nonce env (LockiIdProfile.address (profile w))) "nonce" = inl v ->
  int_property v = inr e ->
  let r := UTILS_OT_get_nonce.execute env w in
  raised r = Some e /\
  LockiIdProfile.nonce (profile (final r)) = v /\
  file (final r) = file w /\
  log (final r) = (log w ++ [LedgerNonce (LockiIdProfile.address (profile w))])%list.
Proof.
  intros Hget Hint r. subst r.
  rewrite (get_nonce_refused_outcome env w v e Hget Hint). cbn.
  repeat split.
Qed.

Lemma get_nonce_refused_nonce_half_set_witness :
  let r := UTILS_OT_get_nonce.execute SampleUi.string_nonce Sample.logged_in in
  raised r = Some TypeError /\
  LockiIdProfile.nonce (profile (final r)) = PyStr "12" /\
  file (final r) = Stored Sample.alice_session /\
  log (final r) = [LedgerNonce Sample.alice].
Proof.
  apply (get_nonce_refused_nonce_half_set SampleUi.string_nonce Sample.logged_in
           (PyStr "12") TypeError); reflexivity.
Defined.

(** [token_expires] as an equation, in any world. *)
Lemma token_expires_run (env : Env) (w : World) :
  token_expires env w =
    Returned (parseExpiry_spec env (LockiIdProfile.expires (profile w))) w.
Proof.
  unfold token_expires, bind, get.
  destruct (LockiIdProfile.expires (profile w)) as [exp |]; [| reflexivity].
  destruct exp as [| c exp']; [reflexivity |].
  change (str_truthy (String c exp')) with true. cbn [negb].
  rewrite try_formats_first_parse.
  cbn [formats first_parse parseExpiry_spec].
  destruct (strptime env (String c exp') ISO_8601_Z); [reflexivity |].
  destruct (strptime env (String c exp') ISO_8601_FRACTION_Z); [reflexivity |].
  destruct (strptime env (String c exp') RFC_1123); reflexivity.
Qed.

(** A successful [validate_token] as an equation. *)
Lemma validate_token_success_run (env : Env) (w : World) :
  snd (validate env (LockiIdProfile.token (profile w))) = None ->
  let p' :=
    LockiIdProfile.set_expires
      (fst (validate env (LockiIdProfile.token (profile w)))) (profile w) in
  validate_token env w =
    Returned None
      (mkWorld p' (Stored p') (prefs w)
         (log w ++ [ServerValidate (LockiIdProfile.token (profile w)); SaveJson])).
Proof.
  intros Hok p'. subst p'.
  unfold validate_token. run.
  destruct (validate env (LockiIdProfile.token (profile w))) as [exp err].
  cbn in Hok. subst err. cbn.
  flatten_log. reflexivity.
Qed.

(** X10: when the ledger lookup succeeds, the refresh-NFTs operator replaces
    the stored list wholesale by the display URLs of the ledger's records,
    whatever the list held before, and leaves the address, key, token, expiry
    and nonce of the session as they were; the file holds the same session. *)
Theorem get_nfts_replaces_list_only (env : Env) (w : World) (records : list NftRecord) :
  account_nfts env (LockiIdProfile.address (profile w)) = Some records ->
  let w' := final (UTILS_OT_get_nfts.execute env w) in
  LockiIdProfile.nfts (profile w') =
    PyList (List.map PyStr (mvx_requests.get_urllist_from_list records)) /\
  LockiIdProfile.set_nfts (LockiIdProfile.nfts (profile w)) (profile w') = profile w /\
  file w' = Stored (profile w') /\
  (forall old : pyval,
     profile (final (UTILS_OT_get_nfts.execute env
                       (with_profile (LockiIdProfile.set_nfts old) w))) = profile w').
Proof.
  intros Hfound w'. subst w'.
  rewrite (get_nfts_records_outcome env w records Hfound).
  split; [reflexivity |].
  split; [cbn; destruct (profile w); reflexivity |].
  split; [reflexivity |].
  intros old.
  rewrite (get_nfts_records_outcome env
             (with_profile (LockiIdProfile.set_nfts old) w) records Hfound).
  reflexivity.
Qed.

Lemma get_nfts_replaces_list_only_witness :
  let w' := final (UTILS_OT_get_nfts.execute SampleUi.three_records Sample.logged_in) in
  LockiIdProfile.nfts (profile w') =
    PyList [PyStr "https://nft.example/a"; PyStr "https://nft.example/c"] /\
  LockiIdProfile.set_nfts (LockiIdProfile.nfts (profile Sample.logged_in)) (profile w') =
    profile Sample.logged_in /\
  file w' = Stored (profile w') /\
  (forall old : pyval,
     profile (final (UTILS_OT_get_nfts.execute SampleUi.three_records
                       (with_profile (LockiIdProfile.set_nfts old) Sample.logged_in))) =
     profile w').
Proof.
  apply (get_nfts_replaces_list_only SampleUi.three_records Sample.logged_in
           [mkNftRecord "A-1" (Some "https://nft.example/a");
            mkNftRecord "B-2" None;
            mkNftRecord "C-3" (Some "https://nft.example/c")]).
  reflexivity.
Defined.

(** X11: validation and the expiry parser compose: after a successful
    [validate_token], [token_expires] yields the expiry the service sent,
    read by the first format that parses it, and [None] when the service
    sent none or one that no format parses. *)
Theorem validate_then_token_expires (env : Env) (w : World) :
  snd (validate env (LockiIdProfile.token (profile w))) = None ->
  let w1 := final (validate_token env w) in
  token_expires env w1 =
    Returned (parseExpiry_spec env (fst (validate env (LockiIdProfile.token (profile w))))) w1.
Proof.
  intros Hok w1.
  rewrite token_expires_run. subst w1.
  rewrite (validate_token_success_run env w Hok). reflexivity.
Qed.

Lemma validate_then_token_expires_witness :
  let w1 := final (validate_token Sample.working Sample.logged_in) in
  token_expires Sample.working w1 =
    Returned (parseExpiry_spec Sample.working (Some "2024-06-01T10:00:00Z")) w1.
Proof.
  apply (validate_then_token_expires Sample.working Sample.logged_in).
  reflexivity.
Defined.

(** X12: a rejected login with no stored session makes no logout call of any
    kind, leaves the file untouched and shows the service's message; the
    session is whatever the file yields. *)
Theorem login_failure_without_session_writes_nothing (env : Env) (w : World) :
  success (authenticate env (LockiIdPreferences.api_key (prefs w))) = false ->
  LockiIdProfile.address (profile w) = "" ->
  let r := LockiIdLogin.execute env w in
  file (final r) = file w /\
  log (final r) =
    (log w ++ [ServerAuthenticate (LockiIdPreferences.api_key (prefs w)); ReadJson])%list /\
  profile (final r) = profiles.load (file w) /\
  LockiIdPreferences.error_message (prefs (final r)) =
    error_message (authenticate env (LockiIdPreferences.api_key (prefs w))).
Proof.
  intros Hfail Hfresh r. subst r.
  rewrite (login_failure_fresh_outcome env w Hfail Hfresh). cbn.
  repeat split.
Qed.

Lemma login_failure_without_session_writes_nothing_witness :
  let r := LockiIdLogin.execute Sample.failing Sample.logged_out in
  file (final r) = Missing /\
  log (final r) = [ServerAuthenticate "key-bob"; ReadJson] /\
  profile (final r) = LockiIdProfile.empty /\
  LockiIdPreferences.error_message (prefs (final r)) = "Invalid API key".
Proof.
  apply (login_failure_without_session_writes_nothing Sample.failing Sample.logged_out);
    reflexivity.
Defined.

(** ** The preferences panel and the side panel *)

Lemma operator_ids_app (a b : list UiCall) :
  operator_ids (a ++ b) = (operator_ids a ++ operator_ids b)%list.
Proof.
  induction a as [| c a IH]; [reflexivity |].
  destruct c; cbn; rewrite IH; reflexivity.
Qed.

Lemma prop_names_app (a b : list UiCall) :
  prop_names (a ++ b) = (prop_names a ++ prop_names b)%list.
Proof.
  induction a as [| c a IH]; [reflexivity |].
  destruct c; cbn; rewrite IH; reflexivity.
Qed.

Lemma label_texts_app (a b : list UiCall) :
  label_texts (a ++ b) = (label_texts a ++ label_texts b)%list.
Proof.
  induction a as [| c a IH]; [reflexivity |].
  destruct c; cbn; rewrite IH; reflexivity.
Qed.

Lemma message_rows_offer_nothing (self : LockiIdPreferences.t) :
  operator_ids (message_rows self) = [] /\ prop_names (message_rows self) = [].
Proof.
  unfold message_rows.
  destruct (str_truthy (LockiIdPreferences.error_message self));
    destruct (str_truthy (LockiIdPreferences.ok_message self)); split; reflexivity.
Qed.

Lemma message_rows_texts (self : LockiIdPreferences.t) :
  label_texts (message_rows self) =
    ((if str_truthy (LockiIdPreferences.error_message self)
      then [LockiIdPreferences.error_message self] else []) ++
     (if str_truthy (LockiIdPreferences.ok_message self)
      then [LockiIdPreferences.ok_message self] else []))%list.
Proof.
  unfold message_rows.
  destruct (str_truthy (LockiIdPreferences.error_message self));
    destruct (str_truthy (LockiIdPreferences.ok_message self)); reflexivity.
Qed.

Lemma draw_time_left_offers_nothing (h : Host) (p : LockiIdProfile.t) (e now : datetime) :
  operator_ids (draw_time_left h p e now) = [] /\
  prop_names (draw_time_left h p e now) = [].
Proof.
  unfold draw_time_left. cbv zeta.
  destruct (days (Datetime.sub e now) <? 14)%Z; split; reflexivity.
Qed.

Lemma status_rows_offer_nothing (h : Host) (p : LockiIdProfile.t) (expiry : option datetime) :
  operator_ids (status_rows_of h p expiry) = [] /\
  prop_names (status_rows_of h p expiry) = [].
Proof.
  destruct expiry as [e |]; cbn [status_rows_of].
  - destruct (Datetime.ge (utcnow h) e).
    + split; reflexivity.
    + apply draw_time_left_offers_nothing.
  - split; reflexivity.
Qed.

(** What the preferences panel draws for a logged-out user. *)
Lemma preferences_draw_logged_out_run (h : Host) (env : Env) (w : World) :
  LockiIdProfile.address (profile w) = "" ->
  LockiIdPreferences_draw h env w =
    Returned (message_rows (prefs w) ++ login_form)%list w.
Proof.
  intros Hout.
  unfold LockiIdPreferences_draw, get_active_profile, bind, get, ret.
  rewrite Hout. change (str_truthy "") with false. cbn [negb].
  unfold message_rows, login_form. rewrite <- app_assoc. reflexivity.
Qed.

(** What the preferences panel draws for a logged-in user. *)
Lemma preferences_draw_logged_in_run (h : Host) (env : Env) (w : World) :
  LockiIdProfile.address (profile w) <> "" ->
  LockiIdPreferences_draw h env w =
    Returned
      (message_rows (prefs w)
       ++ status_rows_of h (profile w)
            (parseExpiry_spec env (LockiIdProfile.expires (profile w)))
       ++ session_buttons)%list w.
Proof.
  intros Hin. apply str_truthy_nonempty in Hin.
  unfold LockiIdPreferences_draw, get_active_profile, bind, get, ret.
  rewrite Hin. cbn [negb].
  rewrite token_expires_run.
  unfold message_rows, session_buttons, status_rows_of, UNKNOWN_EXPIRY, LOGIN_EXPIRED.
  rewrite <- app_assoc. reflexivity.
Qed.

(** X13: the preferences panel never raises and changes nothing.  For a
    logged-out user it offers the address and key fields and the login
    button, and no other operator; for a logged-in user it offers logout and
    validate, in that order, whatever is known of the expiry, and neither
    the fields nor the login button. *)
Theorem preferences_draw_login_form_iff_logged_out (h : Host) (env : Env) (w : World) :
  exists calls,
    LockiIdPreferences_draw h env w = Returned calls w /\
    operator_ids calls =
      (if String.eqb (LockiIdProfile.address (profile w)) ""
       then ["locki_id.login"]
       else ["locki_id.logout"; "locki_id.validate"]) /\
    prop_names calls =
      (if String.eqb (LockiIdProfile.address (profile w)) ""
       then ["address"; "api_key"]
       else []).
Proof.
  destruct (String.eqb_spec (LockiIdProfile.address (profile w)) "") as [Hout | Hin].
  - eexists. split; [apply preferences_draw_logged_out_run; exact Hout |].
    rewrite operator_ids_app, prop_names_app.
    destruct (message_rows_offer_nothing (prefs w)) as [-> ->].
    split; reflexivity.
  - eexists. split; [apply preferences_draw_logged_in_run; exact Hin |].
    rewrite !operator_ids_app, !prop_names_app.
    destruct (message_rows_offer_nothing (prefs w)) as [-> ->].
    destruct (status_rows_offer_nothing h (profile w)
                (parseExpiry_spec env (LockiIdProfile.expires (profile w)))) as [-> ->].
    split; reflexivity.
Qed.

(** X14: when the stored expiry is absent, empty or parsed by none of the
    three formats, a logged-in user is shown the pending messages and the one
    line 'We do not know when your token expires, please validate it':
    nothing about the key or the time left. *)
Theorem preferences_draw_unknown_expiry (h : Host) (env : Env) (w : World) :
  LockiIdProfile.address (profile w) <> "" ->
  parseExpiry_spec env (LockiIdProfile.expires (profile w)) = None ->
  LockiIdPreferences_draw h env w =
    Returned (message_rows (prefs w) ++ [Label UNKNOWN_EXPIRY "NONE"] ++ session_buttons)%list w.
Proof.
  intros Hin Hunknown.
  rewrite (preferences_draw_logged_in_run h env w Hin), Hunknown.
  reflexivity.
Qed.

Lemma preferences_draw_unknown_expiry_witness :
  LockiIdPreferences_draw SampleUi.day_after Sample.working SampleUi.odd_expiry =
    Returned
      ([Label "We do not know when your token expires, please validate it" "NONE"]
       ++ session_buttons)%list
      SampleUi.odd_expiry.
Proof.
  apply (preferences_draw_unknown_expiry SampleUi.day_after Sample.working SampleUi.odd_expiry).
  - discriminate.
  - reflexivity.
Defined.

(** X15: when the clock is at or past the parsed expiry, a logged-in user is
    shown the pending messages and the line 'Your login has expired! ...'
    with the error icon; logout and validate stay on offer. *)
Theorem preferences_draw_expired (h : Host) (env : Env) (w : World) (e : datetime) :
  LockiIdProfile.address (profile w) <> "" ->
  parseExpiry_spec env (LockiIdProfile.expires (profile w)) = Some e ->
  Datetime.ge (utcnow h) e = true ->
  LockiIdPreferences_draw h env w =
    Returned (message_rows (prefs w) ++ [Label LOGIN_EXPIRED "ERROR"] ++ session_buttons)%list w.
Proof.
  intros Hin Hparse Hpast.
  rewrite (preferences_draw_logged_in_run h env w Hin), Hparse.
  cbn [status_rows_of]. rewrite Hpast. reflexivity.
Qed.

Lemma preferences_draw_expired_witness :
  LockiIdPreferences_draw SampleUi.day_after Sample.working Sample.logged_in =
    Returned
      ([Label "Your login has expired! Log out and log in again to refresh it" "ERROR"]
       ++ session_buttons)%list
      Sample.logged_in.
Proof.
  apply (preferences_draw_expired SampleUi.day_after Sample.working Sample.logged_in
           (mkDatetime 2024 5 1 10 0 0 0)).
  - discriminate.
  - reflexivity.
  - reflexivity.
Defined.

(** What the preferences panel draws for a logged-in user whose token has
    not expired yet. *)
Lemma preferences_draw_time_left_run (h : Host) (env : Env) (w : World) (e : datetime) :
  LockiIdProfile.address (profile w) <> "" ->
  parseExpiry_spec env (LockiIdProfile.expires (profile w)) = Some e ->
  Datetime.ge (utcnow h) e = false ->
  LockiIdPreferences_draw h env w =
    Returned
      (message_rows (prefs w) ++ draw_time_left h (profile w) e (utcnow h)
       ++ session_buttons)%list w.
Proof.
  intros Hin Hparse Hfuture.
  rewrite (preferences_draw_logged_in_run h env w Hin), Hparse.
  cbn [status_rows_of]. rewrite Hfuture. reflexivity.
Qed.

(** X16: the wording of the time left looks at the whole days only when
    more than one is left.  With one day and less than two minutes to go, a
    logged-in user is told that the token 'will expire within seconds'. *)
Theorem preferences_draw_day_left_reads_seconds
  (h : Host) (env : Env) (w : World) (e : datetime) :
  LockiIdProfile.address (profile w) <> "" ->
  parseExpiry_spec env (LockiIdProfile.expires (profile w)) = Some e ->
  Datetime.ge (utcnow h) e = false ->
  days (Datetime.sub e (utcnow h)) = 1%Z ->
  (seconds (Datetime.sub e (utcnow h)) < 120)%Z ->
  exists calls,
    LockiIdPreferences_draw h env w = Returned calls w /\
    In (Label "Your token will expire within seconds. Please log out and log in again to refresh it"
              "PREVIEW_RANGE") calls.
Proof.
  intros Hin Hparse Hfuture Hday Hsec.
  eexists. split; [apply (preferences_draw_time_left_run h env w e); assumption |].
  apply in_or_app. right. apply in_or_app. left.
  unfold draw_time_left, exp_str. cbv zeta. rewrite Hday.
  assert (H7200 : (7200 <=? seconds (Datetime.sub e (utcnow h)))%Z = false)
    by (apply Z.leb_gt; lia).
  assert (H120 : (120 <=? seconds (Datetime.sub e (utcnow h)))%Z = false)
    by (apply Z.leb_gt; lia).
  rewrite H7200, H120. cbn. right. right. left. reflexivity.
Qed.

Lemma preferences_draw_day_left_reads_seconds_witness :
  exists calls,
    LockiIdPreferences_draw SampleUi.day_before Sample.working Sample.logged_in =
      Returned calls Sample.logged_in /\
    In (Label "Your token will expire within seconds. Please log out and log in again to refresh it"
              "PREVIEW_RANGE") calls.
Proof.
  apply (preferences_draw_day_left_reads_seconds SampleUi.day_before Sample.working
           Sample.logged_in (mkDatetime 2024 5 1 10 0 0 0)).
  - discriminate.
  - reflexivity.
  - reflexivity.
  - reflexivity.
  - reflexivity.
Defined.

(** X17: while the token has not expired, the preferences panel prints the
    stored API key in clear in its first status line: 'You are logged with
    key <key>' on the default endpoint, 'You are logged in as <key> at
    <endpoint>' on another one. *)
Theorem preferences_draw_prints_api_key
  (h : Host) (env : Env) (w : World) (e : datetime) :
  LockiIdProfile.address (profile w) <> "" ->
  parseExpiry_spec env (LockiIdProfile.expires (profile w)) = Some e ->
  Datetime.ge (utcnow h) e = false ->
  exists calls,
    LockiIdPreferences_draw h env w = Returned calls w /\
    In (Label
          (if String.eqb (auth_endpoint h) (AUTH_ENDPOINT h)
           then "You are logged with key " ++ LockiIdProfile.api_key (profile w)
           else "You are logged in as " ++ LockiIdProfile.api_key (profile w)
                ++ " at " ++ auth_endpoint h)
          "WORLD_DATA") calls.
Proof.
  intros Hin Hparse Hfuture.
  eexists. split; [apply (preferences_draw_time_left_run h env w e); assumption |].
  apply in_or_app. right. apply in_or_app. left.
  unfold draw_time_left. cbv zeta. cbn. right. left. reflexivity.
Qed.

Lemma preferences_draw_prints_api_key_witness :
  exists calls,
    LockiIdPreferences_draw SampleUi.day_before Sample.working Sample.logged_in =
      Returned calls Sample.logged_in /\
    In (Label "You are logged with key key-alice" "WORLD_DATA") calls.
Proof.
  apply (preferences_draw_prints_api_key SampleUi.day_before Sample.working
           Sample.logged_in (mkDatetime 2024 5 1 10 0 0 0)).
  - discriminate.
  - reflexivity.
  - reflexivity.
Defined.

(** The rounded quotient is the nearest integer to [s / d]. *)
Lemma round_div_nearest (s d : Z) :
  (0 <= s)%Z -> (0 < d)%Z ->
  (s / d <= round_div s d <= s / d + 1)%Z /\
  (2 * Z.abs (d * round_div s d - s) <= d)%Z.
Proof.
  intros Hs Hd.
  pose proof (Z.div_mod s d ltac:(lia)) as Hdm.
  pose proof (Z.mod_pos_bound s d Hd) as Hr.
  unfold round_div. cbv zeta.
  destruct (Z.ltb_spec (2 * (s mod d)) d) as [Hlow | Hnotlow].
  - split; [lia |]. rewrite Z.abs_neq by lia. lia.
  - destruct (Z.ltb_spec d (2 * (s mod d))) as [Hhigh | Htie].
    + split; [lia |]. rewrite Z.abs_eq by lia. lia.
    + destruct (Z.even (s / d)).
      * split; [lia |]. rewrite Z.abs_neq by lia. lia.
      * split; [lia |]. rewrite Z.abs_eq by lia. lia.
Qed.

(** A difference of datetimes is normalised. *)
Lemma sub_normalised (a b : datetime) :
  (0 <= seconds (Datetime.sub a b) < 86400)%Z /\
  (0 <= microseconds (Datetime.sub a b) < 1000000)%Z.
Proof.
  unfold Datetime.sub, Datetime.normalise. cbn.
  split; apply Z.mod_pos_bound; lia.
Qed.

(** X18: when the time left is worded in hours, the count shown is the
    whole number nearest to the seconds left within the day, and lies
    between 2 and 24. *)
Theorem time_left_hours_between_2_and_24 (h : Host) (e now : datetime) :
  (days (Datetime.sub e now) <= 1)%Z ->
  (7200 <= seconds (Datetime.sub e now))%Z ->
  exists n,
    exp_str h e (Datetime.sub e now) = "in " ++ str_of_Z n ++ " hours" /\
    (2 <= n <= 24)%Z /\
    (2 * Z.abs (3600 * n - seconds (Datetime.sub e now)) <= 3600)%Z.
Proof.
  intros Hdays Hsec.
  destruct (sub_normalised e now) as [Hnorm _].
  destruct (round_div_nearest (seconds (Datetime.sub e now)) 3600) as [Hq Hnear];
    [lia | lia |].
  exists (round_div (seconds (Datetime.sub e now)) 3600).
  split; [| split; [| exact Hnear]].
  - unfold exp_str.
    assert (H14 : (14 <? days (Datetime.sub e now))%Z = false) by (apply Z.ltb_ge; lia).
    assert (H1 : (1 <? days (Datetime.sub e now))%Z = false) by (apply Z.ltb_ge; lia).
    assert (H7200 : (7200 <=? seconds (Datetime.sub e now))%Z = true)
      by (apply Z.leb_le; lia).
    rewrite H14, H1, H7200. reflexivity.
  - assert (2 <= seconds (Datetime.sub e now) / 3600)%Z
      by (apply Z.div_le_lower_bound; lia).
    assert (seconds (Datetime.sub e now) / 3600 < 24)%Z
      by (apply Z.div_lt_upper_bound; lia).
    lia.
Qed.

Lemma time_left_hours_between_2_and_24_witness :
  exists n,
    exp_str SampleUi.nearly_a_day (mkDatetime 2024 5 1 10 0 0 0)
      (Datetime.sub (mkDatetime 2024 5 1 10 0 0 0) (utcnow SampleUi.nearly_a_day)) =
      "in " ++ str_of_Z n ++ " hours" /\
    (2 <= n <= 24)%Z /\
    (2 * Z.abs (3600 * n
                - seconds (Datetime.sub (mkDatetime 2024 5 1 10 0 0 0)
                             (utcnow SampleUi.nearly_a_day))) <= 3600)%Z.
Proof.
  apply (time_left_hours_between_2_and_24 SampleUi.nearly_a_day
           (mkDatetime 2024 5 1 10 0 0 0) (utcnow SampleUi.nearly_a_day)).
  - vm_compute. discriminate.
  - vm_compute. discriminate.
Defined.

(** What the side panel draws. *)
Lemma side_panel_run (w : World) :
  VIEW3D_PT_locki_panel.draw w =
    Returned
      ((if String.eqb (LockiIdProfile.address (profile w)) ""
        then [] else VIEW3D_PT_locki_panel.ledger_buttons)
       ++ VIEW3D_PT_locki_panel.scene_buttons)%list w.
Proof.
  unfold VIEW3D_PT_locki_panel.draw, is_logged_in, bind, get, ret.
  destruct (String.eqb (LockiIdProfile.address (profile w)) ""); reflexivity.
Qed.

Ltac decide_membership :=
  cbn; split; intros Hmem;
  repeat match goal with
         | H : _ \/ _ |- _ => destruct H as [H | H]
         | H : False |- _ => destruct H
         | H : _ = _ |- _ => discriminate H
         | H : ~ _ |- _ => exfalso; apply H; cbn; tauto
         end;
  try tauto;
  try (intros Hmem'; cbn in Hmem';
       repeat match goal with
              | H : _ \/ _ |- _ => destruct H as [H | H]
              | H : False |- _ => destruct H
              | H : _ = _ |- _ => discriminate H
              end).

(** X19: the two panels agree on who is logged in, though one tests
    [is_logged_in()] and the other the truth of [get_active_profile()]: the
    side panel offers the nonce and NFT operators exactly when the
    preferences panel offers logout and validate, and exactly when it does
    not offer login; the scene operators are offered in either case. *)
Theorem panels_agree_on_login_state (h : Host) (env : Env) (w : World) :
  exists side preferences,
    VIEW3D_PT_locki_panel.draw w = Returned side w /\
    LockiIdPreferences_draw h env w = Returned preferences w /\
    (In "utils.get_nonce" (operator_ids side) <->
     In "locki_id.logout" (operator_ids preferences)) /\
    (In "utils.get_nfts" (operator_ids side) <->
     In "locki_id.validate" (operator_ids preferences)) /\
    (In "utils.get_nonce" (operator_ids side) <->
     ~ In "locki_id.login" (operator_ids preferences)) /\
    incl (operator_ids VIEW3D_PT_locki_panel.scene_buttons) (operator_ids side).
Proof.
  destruct (String.eqb_spec (LockiIdProfile.address (profile w)) "") as [Hout | Hin].
  - eexists. eexists.
    split; [apply side_panel_run |].
    split; [apply preferences_draw_logged_out_run; exact Hout |].
    rewrite Hout. cbn [String.eqb app].
    rewrite operator_ids_app.
    destruct (message_rows_offer_nothing (prefs w)) as [-> _].
    split; [decide_membership |].
    split; [decide_membership |].
    split; [decide_membership |].
    apply incl_refl.
  - eexists. eexists.
    split; [apply side_panel_run |].
    split; [apply preferences_draw_logged_in_run; exact Hin |].
    apply String.eqb_neq in Hin. rewrite Hin.
    rewrite !operator_ids_app.
    destruct (message_rows_offer_nothing (prefs w)) as [-> _].
    destruct (status_rows_offer_nothing h (profile w)
                (parseExpiry_spec env (LockiIdProfile.expires (profile w)))) as [-> _].
    split; [decide_membership |].
    split; [decide_membership |].
    split; [decide_membership |].
    apply incl_appr, incl_refl.
Qed.

(** X20: after the logout operator, from any world and whatever the server
    answered, the preferences panel shows 'You have been logged out' and the
    login form, and the side panel offers the scene operators only. *)
Theorem panels_after_logout (h : Host) (env : Env) (w : World) :
  let w' := final (LockiIdLogout.execute env w) in
  LockiIdPreferences_draw h env w' =
    Returned ([Row; Label "You have been logged out" "FILE_TICK"] ++ login_form)%list w' /\
  VIEW3D_PT_locki_panel.draw w' = Returned VIEW3D_PT_locki_panel.scene_buttons w'.
Proof.
  cbv zeta. rewrite logout_outcome. cbn [final].
  split.
  - rewrite preferences_draw_logged_out_run by reflexivity. reflexivity.
  - rewrite side_panel_run. reflexivity.
Qed.

(** X21: after a login that fails while a session was stored, the
    preferences panel shows the service's message as an alert (nothing at
    all when that message is empty) and the login form; the stored session
    is no longer on offer. *)
Theorem preferences_draw_after_failed_login (h : Host) (env : Env) (w : World) :
  success (authenticate env (LockiIdPreferences.api_key (prefs w))) = false ->
  LockiIdProfile.address (profile w) <> "" ->
  let msg := error_message (authenticate env (LockiIdPreferences.api_key (prefs w))) in
  let w' := final (LockiIdLogin.execute env w) in
  LockiIdPreferences_draw h env w' =
    Returned
      ((if str_truthy msg then [Row; SetAlert; Label msg "ERROR"] else [])
       ++ login_form)%list w'.
Proof.
  intros Hfail Hstale msg w'. subst msg w'.
  rewrite (login_failure_outcome env w Hfail Hstale). cbn [final].
  rewrite preferences_draw_logged_out_run by reflexivity.
  unfold message_rows. cbn.
  change (str_truthy "") with false.
  rewrite app_nil_r. reflexivity.
Qed.

Lemma preferences_draw_after_failed_login_witness :
  let w' := final (LockiIdLogin.execute Sample.failing Sample.logged_in) in
  LockiIdPreferences_draw SampleUi.day_before Sample.failing w' =
    Returned ([Row; SetAlert; Label "Invalid API key" "ERROR"] ++ login_form)%list w'.
Proof.
  apply (preferences_draw_after_failed_login SampleUi.day_before Sample.failing
           Sample.logged_in).
  - reflexivity.
  - discriminate.
Defined.

(** X22: at the fourteen-day boundary the two tests of the panel ([> 14] for
    the wording, [< 14] for the notice) fall on the same side: with fourteen
    whole days left the user reads 'Your authentication token expires in 14
    days', without a date and without the advice to log in again. *)
Theorem preferences_draw_fourteen_days_left
  (h : Host) (env : Env) (w : World) (e : datetime) :
  LockiIdProfile.address (profile w) <> "" ->
  parseExpiry_spec env (LockiIdProfile.expires (profile w)) = Some e ->
  Datetime.ge (utcnow h) e = false ->
  days (Datetime.sub e (utcnow h)) = 14%Z ->
  exists calls,
    LockiIdPreferences_draw h env w = Returned calls w /\
    label_texts calls =
      (label_texts (message_rows (prefs w)) ++
       [(if String.eqb (auth_endpoint h) (AUTH_ENDPOINT h)
         then "You are logged with key " ++ LockiIdProfile.api_key (profile w)
         else "You are logged in as " ++ LockiIdProfile.api_key (profile w)
              ++ " at " ++ auth_endpoint h)%string;
        "Your authentication token expires in 14 days"])%list.
Proof.
  intros Hin Hparse Hfuture Hdays.
  eexists. split; [apply (preferences_draw_time_left_run h env w e); assumption |].
  rewrite !label_texts_app. f_equal.
  unfold draw_time_left, exp_str. cbv zeta. rewrite Hdays. cbn.
  reflexivity.
Qed.

Lemma preferences_draw_fourteen_days_left_witness :
  exists calls,
    LockiIdPreferences_draw SampleUi.fortnight_before Sample.working Sample.logged_in =
      Returned calls Sample.logged_in /\
    label_texts calls =
      ["You are logged with key key-alice";
       "Your authentication token expires in 14 days"].
Proof.
  apply (preferences_draw_fourteen_days_left SampleUi.fortnight_before Sample.working
           Sample.logged_in (mkDatetime 2024 5 1 10 0 0 0)).
  - discriminate.
  - reflexivity.
  - reflexivity.
  - reflexivity.
Defined.
